(** * kornia.x.trainer: the epoch loop of [Trainer] and its hooks

    A shallow embedding of [kornia/x/trainer.py].  The trainer is glue
    code around an external numerical library (torch, accelerate): every
    call into that library is kept opaque, threaded through an abstract
    [World], and recorded in a trace of events.  The statements below are
    about the control flow of [Trainer.__init__], [Trainer.fit_epoch] and
    [Trainer.fit]: which calls are made, in which order, how often, and
    which function a hook name resolves to. *)

From Stdlib Require Import ZArith QArith List String Lia.
From stdpp Require Import base gmap strings list.

Local Open Scope string_scope.
Local Open Scope list_scope.
Local Open Scope Z_scope.

(** ** Python values *)

(** Modelled from the spec: [TrainerState] lives in [kornia/x/utils.py],
    which is not part of the sources at hand.  The spec describes it as
    "a small enumeration indicating whether training should continue or
    stop"; the trainer only ever names the member [TERMINATE]. *)
Inductive TrainerState : Type :=
| TRAINING
| TERMINATE.

(** The values that flow through the trainer.  Tensors, modules, data
    loaders, optimizers and validation statistics are references into the
    external library ([VObj]); their contents live in the [World]. *)
Inductive value : Type :=
| VNone
| VInt (z : Z)
| VState (s : TrainerState)
| VObj (id : nat).

Global Instance TrainerState_eq_dec : EqDecision TrainerState.
Proof. solve_decision. Defined.

Global Instance value_eq_dec : EqDecision value.
Proof. solve_decision. Defined.

Inductive exception : Type :=
| ModuleNotFoundError (msg : string)
| ValueError (msg : string).

(** Modelled from the spec: [Configuration] also lives in
    [kornia/x/utils.py].  The spec calls it the "configuration holder"
    that "carries hyperparameters (epoch count, etc.)"; the trainer reads
    [config.num_epochs] and nothing else. *)
Module Configuration.
Record t : Type := mk {
  num_epochs : Z
}.
End Configuration.
Abbreviation Configuration := Configuration.t.

(** ** The running-average meter *)

(** Modelled from the spec: [AverageMeter] is imported from
    [kornia.metrics] and is not part of the sources at hand.  The spec
    describes a meter that "accumulates a scalar metric (e.g., loss) over
    a batch stream and exposes current/average values".  The trainer
    creates it with [AverageMeter()], feeds it with [update(val, n)] and
    reads [val] and [avg].  Python floats are idealised as rationals, and
    the average is the running sum over the running count; the spec does
    not say what a meter does while the count is zero, where rational
    division gives 0. *)
Module AverageMeter.

Record t : Type := mk {
  val : Q;
  avg : Q;
  sum : Q;
  count : Z
}.

Definition new : t := {| val := 0; avg := 0; sum := 0; count := 0 |}.

Definition update (m : t) (v : Q) (n : Z) : t :=
  let s := (sum m + v * inject_Z n)%Q in
  let c := count m + n in
  {| val := v; avg := (s / inject_Z c)%Q; sum := s; count := c |}.

(** The meter after a stream of updates, oldest first. *)
Definition feed (m : t) (us : list (Q * Z)) : t :=
  fold_left (fun m u => update m (fst u) (snd u)) us m.

(** The count-weighted mean, written from the words of the claim. *)
Definition weighted_sum (us : list (Q * Z)) : Q :=
  fold_right (fun u acc => (fst u * inject_Z (snd u) + acc)%Q) 0%Q us.

Definition total_count (us : list (Q * Z)) : Z :=
  fold_right (fun u acc => snd u + acc) 0 us.

Definition weighted_mean (us : list (Q * Z)) : Q :=
  (weighted_sum us / inject_Z (total_count us))%Q.

End AverageMeter.

(** ** Events and the trainer monad *)

(** One event per call the trainer makes on one of its collaborators. *)
Inductive event : Type :=
| EAccelerator (acc : value)                      (* Accelerator() *)
| EPrepare (x r : value)                          (* accelerator.prepare(x) *)
| ETo (module device r : value)                   (* criterion.to(device) *)
| EModelTrain                                     (* model.train() *)
| EIter (n : nat)                                 (* iter(train_dataloader) *)
| EZeroGrad                                       (* optimizer.zero_grad() *)
| EHook (name : string) (args : list value) (ret : value)
                                                  (* self.<name>(args) *)
| EForward (img output : value)                   (* model(img) *)
| ECriterion (output target loss : value)         (* criterion(output, target) *)
| EBackward (loss : value)                        (* accelerator.backward(loss) *)
| EOptimizerStep                                  (* optimizer.step() *)
| EMeterUpdate (v : Q) (n : Z)                    (* losses.update(v, n) *)
| ELogInfo (epoch epochs sample samples : Z) (v a : Q)
                                                  (* _logger.info(...) *)
| ESchedulerStep                                  (* scheduler.step() *)
| ECompare (a b : value) (r : bool).              (* a == b, as a truth value *)

Section Trainer.

(** The state of the external library: parameters, gradients, optimizer
    and scheduler state, random generators, files written by hooks. *)
Context {World : Type}.

Record outcome (A : Type) : Type := mkOutcome {
  res : A;
  wld : World;
  trc : list event
}.
Global Arguments mkOutcome {A} _ _ _.
Global Arguments res {A} _.
Global Arguments wld {A} _.
Global Arguments trc {A} _.

Definition M (A : Type) : Type := World -> outcome A.

Definition ret {A} (a : A) : M A := fun w => mkOutcome a w [].

Definition bind {A B} (m : M A) (f : A -> M B) : M B :=
  fun w =>
    let r := m w in
    let r' := f (res r) (wld r) in
    mkOutcome (res r') (wld r') (trc r ++ trc r').

(** A call into the external library: run it, record the event. *)
Definition extern {A} (f : World -> A * World) (ev : A -> event) : M A :=
  fun w => let '(a, w') := f w in mkOutcome a w' [ev a].

(** A Python callable, as the trainer uses one: positional arguments in,
    a value out, with effects on the world. *)
Definition callable : Type := list value -> World -> value * World.

End Trainer.

Arguments outcome : clear implicits.
Arguments M : clear implicits.
Arguments callable : clear implicits.

Notation "'do' x <- m ; k" := (bind m (fun x => k))
  (at level 10, x name, m at level 100, k at level 200,
   format "'[v' 'do'  x  <-  m ; '/' k ']'").
Notation "'do_' m ; k" := (bind m (fun _ => k))
  (at level 10, m at level 100, k at level 200,
   format "'[v' 'do_'  m ; '/' k ']'").

(** ** The external library *)

(** What the trainer calls and does not implement: accelerate, torch
    modules, optimizers, schedulers and data loaders.  Receivers come
    first; a method that returns nothing returns [tt]. *)
Class Backend (World : Type) : Type := {
  (** [from accelerate import Accelerator]: the class when the import
      succeeds, [None] when it raises [ImportError]. *)
  accelerate : option (World -> value * World);
  accelerator_prepare : value -> value -> World -> value * World;
  accelerator_device : value -> World -> value;
  accelerator_backward : value -> value -> World -> unit * World;
  module_to : value -> value -> World -> value * World;
  module_train : value -> World -> unit * World;
  module_call : value -> list value -> World -> value * World;
  (** One pass over a data loader: its samples, each a (source, target)
      pair, in the order [enumerate] sees them. *)
  dataloader_iter : value -> World -> list (value * value) * World;
  dataloader_len : value -> World -> Z;
  optimizer_zero_grad : value -> World -> unit * World;
  optimizer_step : value -> World -> unit * World;
  scheduler_step : value -> World -> unit * World;
  tensor_item : value -> World -> Q;
  tensor_shape0 : value -> World -> Z;
  (** [o == other] for an object [o] of the library or of a hook, as a
      truth value: the object's own [__eq__] decides, and may do as it
      likes. *)
  object_eq : nat -> value -> World -> bool * World
}.

(** ** The trainer *)

Definition callbacks_whitelist : list string :=
  ["preprocess"; "augmentations"; "evaluate"; "fit"; "checkpoint"; "terminate"].

(** [range(n)] *)
Definition range (n : Z) : list Z := map Z.of_nat (seq 0 (Z.to_nat n)).

Section TrainerClass.

Context {World : Type} `{!Backend World}.

(** The module-level name [Accelerator] after the guarded import. *)
Definition Accelerator : option (World -> value * World) :=
  match accelerate with
  | Some cls => Some cls
  | None => None
  end.

(** An instance of [Trainer].  The attributes assigned by name in
    [__init__] are fields; [dict] holds what [setattr(self, fn_name, fn)]
    bound on the instance.  [_logger] is left out: a log record is an
    event of the trace. *)
Record Trainer : Type := mkTrainer {
  accelerator : value;
  model : value;
  train_dataloader : value;
  valid_dataloader : value;
  criterion : value;
  optimizer : value;
  scheduler : value;
  config : Configuration;
  num_epochs : Z;
  dict : gmap string (callable World)
}.

(** The loop over [callbacks.items()], in insertion order, on the
    instance dictionary [d]; it returns the dictionary as the loop
    leaves it, and the exception if it raised. *)
Fixpoint configure_callbacks (items : list (string * callable World))
    (d : gmap string (callable World))
    : gmap string (callable World) * option exception :=
  match items with
  | [] => (d, None)
  | (fn_name, fn) :: rest =>
      if bool_decide (fn_name ∈ callbacks_whitelist)
      then configure_callbacks rest (<[fn_name := fn]> d)
      else (d, Some (ValueError ("Not supported: " ++ fn_name ++ ".")%string))
  end.

Definition device (acc : value) (w : World) : value := accelerator_device acc w.

Definition Trainer_init (model train_dataloader valid_dataloader criterion
    optimizer scheduler : value) (config : Configuration)
    (callbacks : list (string * callable World))
    : M World (exception + Trainer) :=
  match Accelerator with
  | None =>
      ret (inl (ModuleNotFoundError
                  "accelerate library is not installed: pip install kornia[x]"))
  | Some cls =>
      do acc <- extern cls EAccelerator;
      do model' <- extern (accelerator_prepare acc model) (EPrepare model);
      do train' <- extern (accelerator_prepare acc train_dataloader)
                          (EPrepare train_dataloader);
      do valid' <- extern (accelerator_prepare acc valid_dataloader)
                          (EPrepare valid_dataloader);
      do criterion' <- (fun w => extern (module_to criterion (device acc w))
                                        (ETo criterion (device acc w)) w);
      do optimizer' <- extern (accelerator_prepare acc optimizer)
                              (EPrepare optimizer);
      match configure_callbacks callbacks ∅ with
      | (_, Some e) => ret (inl e)
      | (d, None) =>
          ret (inr {| accelerator := acc; model := model';
                      train_dataloader := train'; valid_dataloader := valid';
                      criterion := criterion'; optimizer := optimizer';
                      scheduler := scheduler; config := config;
                      num_epochs := Configuration.num_epochs config;
                      dict := d |})
      end
  end.

(** *** The default stages, as the class defines them *)

(** [self] is left out of the argument lists.  [preprocess] and
    [augmentations] take one argument, and every call in this file gives
    them one; any other number is a [TypeError] in Python and has no
    meaning here. *)

Definition Trainer_evaluate : callable World :=
  fun _ w => (VNone, w).

Definition Trainer_preprocess : callable World :=
  fun args w => match args with [x] => (x, w) | _ => (VNone, w) end.

Definition Trainer_augmentations : callable World :=
  fun args w => match args with [x] => (x, w) | _ => (VNone, w) end.

Definition Trainer_checkpoint : callable World :=
  fun _ w => (VNone, w).

Definition Trainer_terminate : callable World :=
  fun _ w => (VNone, w).

(** Attribute lookup [self.<name>] for a name the class defines: the
    instance dictionary first, then the class. *)
Definition lookup_method (self : Trainer) (name : string)
    (class_impl : callable World) : callable World :=
  match dict self !! name with
  | Some fn => fn
  | None => class_impl
  end.

(** [self.<name>(args)] *)
Definition call_method (self : Trainer) (name : string)
    (class_impl : callable World) (args : list value) : M World value :=
  extern (lookup_method self name class_impl args) (EHook name args).

Definition backward (self : Trainer) (loss : value) : M World unit :=
  extern (accelerator_backward (accelerator self) loss) (fun _ => EBackward loss).

(** [losses.update(loss.item(), img.shape[0])] *)
Definition losses_update (losses : AverageMeter.t) (loss img : value)
    : M World AverageMeter.t :=
  fun w =>
    let v := tensor_item loss w in
    let n := tensor_shape0 img w in
    mkOutcome (AverageMeter.update losses v n) w [EMeterUpdate v n].

Definition log_train (self : Trainer) (epoch sample_id : Z)
    (losses : AverageMeter.t) : M World unit :=
  fun w =>
    mkOutcome tt w
      [ELogInfo (epoch + 1) (num_epochs self) (sample_id + 1)
                (dataloader_len (train_dataloader self) w)
                (AverageMeter.val losses) (AverageMeter.avg losses)].

(** The body of the [for sample_id, sample in enumerate(...)] loop. *)
Definition train_step (self : Trainer) (epoch sample_id : Z)
    (sample : value * value) (losses : AverageMeter.t)
    : M World AverageMeter.t :=
  let '(source, target) := sample in
  do_ extern (optimizer_zero_grad (optimizer self)) (fun _ => EZeroGrad);
  do img <- call_method self "preprocess" Trainer_preprocess [source];
  do img <- call_method self "augmentations" Trainer_augmentations [img];
  do output <- extern (module_call (model self) [img]) (EForward img);
  do loss <- extern (module_call (criterion self) [output; target])
                    (ECriterion output target);
  do_ backward self loss;
  do_ extern (optimizer_step (optimizer self)) (fun _ => EOptimizerStep);
  do losses <- losses_update losses loss img;
  do_ (if sample_id mod 50 =? 0 then log_train self epoch sample_id losses
       else ret tt);
  ret losses.

Fixpoint train_loop (self : Trainer) (epoch sample_id : Z)
    (samples : list (value * value)) (losses : AverageMeter.t)
    : M World AverageMeter.t :=
  match samples with
  | [] => ret losses
  | sample :: rest =>
      do losses <- train_step self epoch sample_id sample losses;
      train_loop self epoch (sample_id + 1) rest losses
  end.

(** [fit_epoch] up to the end of its loop; the meter is a local
    variable, returned here so that it can be spoken about. *)
Definition fit_epoch_losses (self : Trainer) (epoch : Z)
    : M World AverageMeter.t :=
  do_ extern (module_train (model self)) (fun _ => EModelTrain);
  let losses := AverageMeter.new in
  do samples <- extern (dataloader_iter (train_dataloader self))
                       (fun l => EIter (length l));
  train_loop self epoch 0 samples losses.

Definition Trainer_fit_epoch (self : Trainer) (epoch : Z) : M World unit :=
  do_ fit_epoch_losses self epoch;
  ret tt.

(** [a == TrainerState.<member>], as the truth value the [if] takes.
    Python asks the left operand first: an object answers through its
    own [__eq__]; [None], an integer and an enumeration member leave the
    answer to identity, so they are equal to the member only when they
    are that member. *)
Definition py_eq_member (a : value) (member : TrainerState) : M World bool :=
  match a with
  | VObj id => extern (object_eq id (VState member)) (ECompare a (VState member))
  | _ => extern (fun w => (bool_decide (a = VState member), w))
                (ECompare a (VState member))
  end.

(** The [for epoch in range(self.num_epochs)] loop of [fit] on the
    epochs still to run.  [fit_epoch] is not a whitelisted name, so
    [self.fit_epoch] is always the class's. *)
Fixpoint fit_loop (self : Trainer) (epochs : list Z) : M World unit :=
  match epochs with
  | [] => ret tt
  | epoch :: rest =>
      do_ Trainer_fit_epoch self epoch;
      do valid_stats <- call_method self "evaluate" Trainer_evaluate [];
      do_ call_method self "checkpoint" Trainer_checkpoint
                      [model self; VInt epoch; valid_stats];
      do state <- call_method self "terminate" Trainer_terminate
                              [model self; VInt epoch; valid_stats];
      do stop <- py_eq_member state TERMINATE;
      if stop
      then ret tt (* break *)
      else
        do_ extern (scheduler_step (scheduler self)) (fun _ => ESchedulerStep);
        fit_loop self rest
  end.

Definition Trainer_fit (self : Trainer) : M World unit :=
  fit_loop self (range (num_epochs self)).

(** [trainer.fit()] as a caller writes it: [fit] is itself a
    whitelisted name, so the attribute may be a supplied function. *)
Definition fit (self : Trainer) : M World value :=
  match (dict self !! "fit" : option (callable World)) with
  | Some fn => extern (fn []) (EHook "fit" [])
  | None => do_ Trainer_fit self; ret VNone
  end.

End TrainerClass.

Arguments Trainer : clear implicits.

(** ** Reading a trace *)

(** The lifecycle stages of an epoch. *)
Inductive stage : Type :=
| Preprocess
| Augment
| Forward
| Loss
| Backward
| OptimizerStep
| Evaluate
| Checkpoint
| TerminateCheck
| ScheduleStep.

Definition hook_stage (name : string) : option stage :=
  if String.eqb name "preprocess" then Some Preprocess
  else if String.eqb name "augmentations" then Some Augment
  else if String.eqb name "evaluate" then Some Evaluate
  else if String.eqb name "checkpoint" then Some Checkpoint
  else if String.eqb name "terminate" then Some TerminateCheck
  else None.

Definition stage_of (e : event) : option stage :=
  match e with
  | EHook name _ _ => hook_stage name
  | EForward _ _ => Some Forward
  | ECriterion _ _ _ => Some Loss
  | EBackward _ => Some Backward
  | EOptimizerStep => Some OptimizerStep
  | ESchedulerStep => Some ScheduleStep
  | _ => None
  end.

(** The stages a trace went through, in order. *)
Definition stages (tr : list event) : list stage := omap stage_of tr.

Definition batch_order : list stage :=
  [Preprocess; Augment; Forward; Loss; Backward; OptimizerStep].

(** A training pass over [n] batches. *)
Definition training_pass (n : nat) : list stage :=
  concat (replicate n batch_order).

(** The stage sequences of a run of [fit]: epoch after epoch, each a
    training pass, then evaluate, checkpoint and the terminate check; the
    schedule step closes every epoch but one that ends the run at its
    terminate check. *)
Inductive fit_order : list stage -> Prop :=
| fit_order_done : fit_order []
| fit_order_break (n : nat) :
    fit_order (training_pass n ++ [Evaluate; Checkpoint; TerminateCheck])
| fit_order_next (n : nat) (rest : list stage) :
    fit_order rest ->
    fit_order (training_pass n
               ++ [Evaluate; Checkpoint; TerminateCheck; ScheduleStep] ++ rest).

Definition is_terminate_call (e : event) : bool :=
  match e with
  | EHook name _ _ => String.eqb name "terminate"
  | _ => false
  end.

(** The calls of the terminate stage in a trace: epoch and returned value. *)
Definition terminate_call (e : event) : option (Z * value) :=
  match e with
  | EHook name [_; VInt epoch; _] st =>
      if String.eqb name "terminate" then Some (epoch, st) else None
  | _ => None
  end.

Definition terminate_calls (tr : list event) : list (Z * value) :=
  omap terminate_call tr.

(** The outcomes of the checks [state == TrainerState.TERMINATE] of a
    trace, oldest first. *)
Definition stop_check (e : event) : option bool :=
  match e with
  | ECompare _ (VState TERMINATE) r => Some r
  | _ => None
  end.

Definition stop_checks (tr : list event) : list bool := omap stop_check tr.

(** Whether some check of what the terminate stage returned came out
    true, that is whether the loop was left through [break]. *)
Definition terminated (tr : list event) : bool :=
  existsb (fun r => r) (stop_checks tr).

Definition is_scheduler_step (e : event) : bool :=
  match e with ESchedulerStep => true | _ => false end.

Definition is_optimizer_step (e : event) : bool :=
  match e with EOptimizerStep => true | _ => false end.

Definition count_events (p : event -> bool) (tr : list event) : nat :=
  length (List.filter p tr).

Definition scheduler_steps (tr : list event) : nat :=
  count_events is_scheduler_step tr.

Definition meter_update_of (e : event) : option (Q * Z) :=
  match e with EMeterUpdate v n => Some (v, n) | _ => None end.

(** The updates the meter received, oldest first. *)
Definition meter_updates (tr : list event) : list (Q * Z) :=
  omap meter_update_of tr.

(** The gradients an optimizer step works on.  The library accumulates:
    [backward] adds the gradients of its loss to those already stored,
    [zero_grad] clears them, [step] consumes what is stored.  [steps_see
    pending tr] lists, for every optimizer step of [tr], the losses whose
    gradients are stored at that moment, [pending] being those stored
    before [tr] starts. *)
Fixpoint steps_see (pending : list value) (tr : list event)
    : list (list value) :=
  match tr with
  | [] => []
  | EZeroGrad :: tr => steps_see [] tr
  | EBackward loss :: tr => steps_see (pending ++ [loss]) tr
  | EOptimizerStep :: tr => pending :: steps_see pending tr
  | _ :: tr => steps_see pending tr
  end.

Definition backward_loss (e : event) : option value :=
  match e with EBackward loss => Some loss | _ => None end.

Section TraceShapes.

Context {World : Type} `{!Backend World}.

(** The events of one iteration of the training loop of [fit_epoch]. *)
Inductive batch_trace (self : Trainer World) (epoch : Z) : list event -> Prop :=
| batch_trace_intro (source img img' output target loss : value)
    (w : World) (log : list event) :
    Forall (fun e => exists sample samples v a,
              e = ELogInfo (epoch + 1) (num_epochs self) sample samples v a)
           log ->
    batch_trace self epoch
      ([EZeroGrad;
        EHook "preprocess" [source] img;
        EHook "augmentations" [img] img';
        EForward img' output;
        ECriterion output target loss;
        EBackward loss;
        EOptimizerStep;
        EMeterUpdate (tensor_item loss w) (tensor_shape0 img' w)] ++ log).

(** The events of the iteration of the training loop on [sample]: every
    value is the one the call before it returned, the hooks being the
    functions attribute lookup finds. *)
Inductive batch_run (self : Trainer World) (epoch : Z) (sample : value * value)
    : list event -> Prop :=
| batch_run_intro (w1 w2 w3 w4 w5 : World) (img img' output loss : value)
    (log : list event) :
    img = fst (lookup_method self "preprocess" Trainer_preprocess
                 [fst sample] w1) ->
    img' = fst (lookup_method self "augmentations" Trainer_augmentations
                  [img] w2) ->
    output = fst (module_call (model self) [img'] w3) ->
    loss = fst (module_call (criterion self) [output; snd sample] w4) ->
    Forall (fun e => exists sample_no samples v a,
              e = ELogInfo (epoch + 1) (num_epochs self) sample_no samples v a)
           log ->
    batch_run self epoch sample
      ([EZeroGrad;
        EHook "preprocess" [fst sample] img;
        EHook "augmentations" [img] img';
        EForward img' output;
        ECriterion output (snd sample) loss;
        EBackward loss;
        EOptimizerStep;
        EMeterUpdate (tensor_item loss w5) (tensor_shape0 img' w5)] ++ log).

(** The events of one epoch of [fit]: the model is switched to training
    mode, the training loader is iterated and every sample it yields
    goes through its batch; then the validation pass, the checkpoint and
    the terminate stage, each the function attribute lookup finds, the
    check of what terminate returned, and the schedule step unless the
    check came out true. *)
Inductive epoch_run (self : Trainer World) (epoch : Z) : list event -> Prop :=
| epoch_run_intro (w1 w2 w3 w4 w5 : World) (batches : list (list event))
    (valid_stats ck state : value) (stop : bool) :
    Forall2 (batch_run self epoch)
      (fst (dataloader_iter (train_dataloader self) w1)) batches ->
    valid_stats = fst (lookup_method self "evaluate" Trainer_evaluate [] w2) ->
    ck = fst (lookup_method self "checkpoint" Trainer_checkpoint
                [model self; VInt epoch; valid_stats] w3) ->
    state = fst (lookup_method self "terminate" Trainer_terminate
                   [model self; VInt epoch; valid_stats] w4) ->
    stop = res (py_eq_member state TERMINATE w5) ->
    epoch_run self epoch
      ((EModelTrain :: EIter (length batches) :: concat batches)
       ++ [EHook "evaluate" [] valid_stats;
           EHook "checkpoint" [model self; VInt epoch; valid_stats] ck;
           EHook "terminate" [model self; VInt epoch; valid_stats] state;
           ECompare state (VState TERMINATE) stop]
       ++ (if stop then [] else [ESchedulerStep])).

(** The class's implementation of a stage, by name. *)
Definition Trainer_class (name : string) : callable World :=
  if String.eqb name "preprocess" then Trainer_preprocess
  else if String.eqb name "augmentations" then Trainer_augmentations
  else if String.eqb name "evaluate" then Trainer_evaluate
  else if String.eqb name "checkpoint" then Trainer_checkpoint
  else Trainer_terminate.

(** Every hook call of the trace returned what the function [f] returns
    on the arguments of the call, for the calls of the name [name]. *)
Definition hook_calls_are (name : string) (f : callable World)
    (tr : list event) : Prop :=
  forall args ret, EHook name args ret ∈ tr ->
    exists w, ret = fst (f args w).

End TraceShapes.

(** ** A small backend to run the trainer on *)

(** The world counts the calls made so far; a module call returns a
    fresh object, a data loader yields two samples of four items.  The
    object 9 has an [__eq__] that answers yes to everything, the other
    objects are equal to nothing but themselves. *)
Module Toy.

Definition tick {A} (a : A) : nat -> A * nat := fun w => (a, S w).

Definition backend (installed : bool) : Backend nat := {|
  accelerate := if installed then Some (tick (VObj 0)) else None;
  accelerator_prepare := fun _ x => tick x;
  accelerator_device := fun _ _ => VObj 1;
  accelerator_backward := fun _ _ => tick tt;
  module_to := fun m _ => tick m;
  module_train := fun _ => tick tt;
  module_call := fun _ _ w => (VObj (100 + w), S w);
  dataloader_iter := fun _ => tick [(VObj 10, VObj 11); (VObj 12, VObj 13)];
  dataloader_len := fun _ _ => 2;
  optimizer_zero_grad := fun _ => tick tt;
  optimizer_step := fun _ => tick tt;
  scheduler_step := fun _ => tick tt;
  tensor_item := fun _ w => inject_Z (Z.of_nat w);
  tensor_shape0 := fun _ _ => 4;
  object_eq := fun id _ w => (Nat.eqb id 9, w)
|}.

(** A terminate hook that stops at epoch [k]. *)
Definition stop_at (k : Z) : callable nat :=
  fun args w =>
    match args with
    | [_; VInt epoch; _] =>
        (if epoch =? k then VState TERMINATE else VState TRAINING, w)
    | _ => (VNone, w)
    end.


(** A preprocess hook that returns a fixed tensor. *)
Definition blank : callable nat := fun _ w => (VObj 7, w).

Definition cfg (n : Z) : Configuration := Configuration.mk n.

(** [Trainer(model, train, valid, criterion, optimizer, scheduler,
    config, callbacks)] from a fresh world. *)
Definition make (installed : bool) (n : Z)
    (callbacks : list (string * callable nat))
    : outcome nat (exception + Trainer nat) :=
  @Trainer_init nat (backend installed)
    (VObj 2) (VObj 3) (VObj 4) (VObj 5) (VObj 6) (VObj 8) (cfg n)
    callbacks 0%nat.

(** The trainer [make] builds when it succeeds. *)
Definition trainer (n : Z) (callbacks : list (string * callable nat))
    : Trainer nat :=
  {| accelerator := VObj 0; model := VObj 2; train_dataloader := VObj 3;
     valid_dataloader := VObj 4; criterion := VObj 5; optimizer := VObj 6;
     scheduler := VObj 8; config := cfg n; num_epochs := n;
     dict := fst (configure_callbacks callbacks ∅) |}.

End Toy.

(** ** Further readings of a trace *)

(** The sample number a log record shows ([sample_id + 1]). *)
Definition log_sample (e : event) : option Z :=
  match e with ELogInfo _ _ sample _ _ _ => Some sample | _ => None end.

Definition log_samples (tr : list event) : list Z := omap log_sample tr.

(** What the preprocess stage was called on. *)
Definition preprocess_input (e : event) : option value :=
  match e with
  | EHook name [x] _ => if String.eqb name "preprocess" then Some x else None
  | _ => None
  end.

(** What the model was called on. *)
Definition forward_input (e : event) : option value :=
  match e with EForward img _ => Some img | _ => None end.

(** The target the criterion was called with. *)
Definition criterion_target (e : event) : option value :=
  match e with ECriterion _ target _ => Some target | _ => None end.

(** Whether every log record of a trace comes right after an update of
    the meter and shows the value of that very update and the average of
    the meter with that update in, [m] being the meter when the trace
    starts. *)
Fixpoint logs_follow_updates (m : AverageMeter.t) (tr : list event) : Prop :=
  match tr with
  | [] => True
  | EMeterUpdate v n :: tr' =>
      match tr' with
      | ELogInfo _ _ _ _ v' a :: tr'' =>
          v' = v /\ a = AverageMeter.avg (AverageMeter.update m v n) /\
          logs_follow_updates (AverageMeter.update m v n) tr''
      | _ => logs_follow_updates (AverageMeter.update m v n) tr'
      end
  | ELogInfo _ _ _ _ _ _ :: _ => False
  | _ :: tr' => logs_follow_updates m tr'
  end.

Section Unused.

Context {World : Type}.

(** The same trainer with another validation loader and configuration
    record in its attributes. *)
Definition with_validation (self : Trainer World) (valid : value)
    (cfg : Configuration) : Trainer World :=
  {| accelerator := accelerator self; model := model self;
     train_dataloader := train_dataloader self; valid_dataloader := valid;
     criterion := criterion self; optimizer := optimizer self;
     scheduler := scheduler self; config := cfg;
     num_epochs := num_epochs self; dict := dict self |}.

End Unused.

(** A backend like the small one whose data loaders yield nothing. *)
Module ToyEmpty.

Definition backend : Backend nat := {|
  accelerate := Some (Toy.tick (VObj 0));
  accelerator_prepare := fun _ x => Toy.tick x;
  accelerator_device := fun _ _ => VObj 1;
  accelerator_backward := fun _ _ => Toy.tick tt;
  module_to := fun m _ => Toy.tick m;
  module_train := fun _ => Toy.tick tt;
  module_call := fun _ _ w => (VObj (100 + w), S w);
  dataloader_iter := fun _ => Toy.tick [];
  dataloader_len := fun _ _ => 0;
  optimizer_zero_grad := fun _ => Toy.tick tt;
  optimizer_step := fun _ => Toy.tick tt;
  scheduler_step := fun _ => Toy.tick tt;
  tensor_item := fun _ w => inject_Z (Z.of_nat w);
  tensor_shape0 := fun _ _ => 4;
  object_eq := fun id _ w => (Nat.eqb id 9, w)
|}.

End ToyEmpty.

(** * Properties *)

Section MonadFacts.

Context {World : Type}.

Lemma trc_bind {A B} (m : M World A) (f : A -> M World B) (w : World) :
  trc (bind m f w) = trc (m w) ++ trc (f (res (m w)) (wld (m w))).
Proof. reflexivity. Qed.

Lemma res_bind {A B} (m : M World A) (f : A -> M World B) (w : World) :
  res (bind m f w) = res (f (res (m w)) (wld (m w))).
Proof. reflexivity. Qed.

Lemma wld_bind {A B} (m : M World A) (f : A -> M World B) (w : World) :
  wld (bind m f w) = wld (f (res (m w)) (wld (m w))).
Proof. reflexivity. Qed.

Lemma trc_extern {A} (f : World -> A * World) (ev : A -> event) (w : World) :
  trc (extern f ev w) = [ev (fst (f w))].
Proof. unfold extern. destruct (f w); reflexivity. Qed.

Lemma res_extern {A} (f : World -> A * World) (ev : A -> event) (w : World) :
  res (extern f ev w) = fst (f w).
Proof. unfold extern. destruct (f w); reflexivity. Qed.

Lemma wld_extern {A} (f : World -> A * World) (ev : A -> event) (w : World) :
  wld (extern f ev w) = snd (f w).
Proof. unfold extern. destruct (f w); reflexivity. Qed.

Lemma bind_extern {A B} (f : World -> A * World) (ev : A -> event)
    (k : A -> M World B) (w : World) :
  bind (extern f ev) k w
  = let r := k (fst (f w)) (snd (f w)) in
    mkOutcome (res r) (wld r) (ev (fst (f w)) :: trc r).
Proof. unfold bind, extern. destruct (f w); reflexivity. Qed.

End MonadFacts.

(** Run the external call at the head of a computation and name what it
    returned. *)
Ltac run_extern :=
  lazymatch goal with
  | |- context [bind (extern ?f ?ev) ?k ?w] =>
      rewrite (bind_extern f ev k w);
      destruct (f w) as [? ?];
      cbn [fst snd]; cbv zeta; cbn [res wld trc]
  end.

Section Construction.

Context {World : Type} `{!Backend World}.

Implicit Types (items callbacks : list (string * callable World)).
Implicit Types (d : gmap string (callable World)).

Lemma whitelist_names (name : string) :
  name ∈ callbacks_whitelist <->
  name = "preprocess" \/ name = "augmentations" \/ name = "evaluate" \/
  name = "fit" \/ name = "checkpoint" \/ name = "terminate".
Proof.
  unfold callbacks_whitelist. rewrite !elem_of_cons, elem_of_nil. tauto.
Qed.

Lemma configure_callbacks_ok items d :
  snd (configure_callbacks items d) = None <->
  Forall (fun kv => fst kv ∈ callbacks_whitelist) items.
Proof.
  revert d. induction items as [|[k fn] items IH]; intros d; simpl.
  - split; [constructor | reflexivity].
  - case_bool_decide as Hk.
    + rewrite IH. split.
      * intros HF. constructor; [exact Hk | exact HF].
      * intros HF. inversion HF; assumption.
    + simpl. split; [discriminate |].
      intros HF. inversion HF; subst. simpl in *. contradiction.
Qed.

Lemma configure_callbacks_raises items d :
  Exists (fun kv => fst kv ∉ callbacks_whitelist) items ->
  exists name, (name ∈ items.*1) /\ (name ∉ callbacks_whitelist) /\
    snd (configure_callbacks items d)
    = Some (ValueError ("Not supported: " ++ name ++ ".")%string).
Proof.
  revert d. induction items as [|[k fn] items IH]; intros d HE.
  - inversion HE.
  - simpl. case_bool_decide as Hk.
    + inversion HE as [? ? Hbad|? ? Hrest]; subst; [simpl in Hbad; contradiction|].
      destruct (IH (<[k:=fn]> d) Hrest) as (name & Hin & Hnw & Heq).
      exists name. split; [right; exact Hin | split; assumption].
    + exists k. split; [left | split; [exact Hk | reflexivity]].
Qed.

Lemma configure_callbacks_frame items d (name : string) :
  name ∉ callbacks_whitelist ->
  fst (configure_callbacks items d) !! name = d !! name.
Proof.
  intros Hn. revert d. induction items as [|[k fn] items IH]; intros d; simpl.
  - reflexivity.
  - case_bool_decide as Hk; [|reflexivity].
    rewrite IH. apply lookup_insert_ne. intros ->. contradiction.
Qed.

Lemma configure_callbacks_skip items d (name : string) :
  name ∉ items.*1 ->
  fst (configure_callbacks items d) !! name = d !! name.
Proof.
  revert d. induction items as [|[k fn] items IH]; intros d Hn; simpl.
  - reflexivity.
  - simpl in Hn. apply not_elem_of_cons in Hn as [Hne Hn].
    case_bool_decide as Hk; [|reflexivity].
    rewrite IH by exact Hn. apply lookup_insert_ne. congruence.
Qed.

Lemma configure_callbacks_bound items d (name : string) (fn : callable World) :
  NoDup items.*1 ->
  snd (configure_callbacks items d) = None ->
  (name, fn) ∈ items ->
  fst (configure_callbacks items d) !! name = Some fn.
Proof.
  revert d. induction items as [|[k g] items IH]; intros d Hnd Hok Hin.
  - inversion Hin.
  - simpl in *. apply NoDup_cons in Hnd as [Hk Hnd].
    case_bool_decide as Hw; [|discriminate].
    apply elem_of_cons in Hin as [Heq|Hin].
    + inversion Heq; subst.
      rewrite configure_callbacks_skip by exact Hk.
      apply lookup_insert_eq.
    + apply IH; assumption.
Qed.

(** What [__init__] returns once the accelerator is there. *)
Lemma Trainer_init_installed cls model0 train0 valid0 criterion0 optimizer0
    scheduler0 config0 callbacks (w : World) :
  accelerate = Some cls ->
  match snd (configure_callbacks callbacks ∅) with
  | Some e =>
      res (Trainer_init model0 train0 valid0 criterion0 optimizer0
             scheduler0 config0 callbacks w) = inl e
  | None =>
      exists self,
        res (Trainer_init model0 train0 valid0 criterion0 optimizer0
               scheduler0 config0 callbacks w) = inr self /\
        dict self = fst (configure_callbacks callbacks ∅) /\
        config self = config0 /\
        num_epochs self = Configuration.num_epochs config0 /\
        scheduler self = scheduler0
  end.
Proof.
  intros Hacc. unfold Trainer_init, Accelerator. rewrite Hacc.
  rewrite !res_bind.
  destruct (configure_callbacks callbacks ∅) as [d [e|]]; simpl.
  - reflexivity.
  - eexists. split; [reflexivity|]. simpl. auto.
Qed.

(** What a trainer that [__init__] returned is made of. *)
Lemma Trainer_init_returned model0 train0 valid0 criterion0 optimizer0
    scheduler0 config0 callbacks (w : World) (self : Trainer World) :
  res (Trainer_init model0 train0 valid0 criterion0 optimizer0
         scheduler0 config0 callbacks w) = inr self ->
  snd (configure_callbacks callbacks ∅) = None /\
  dict self = fst (configure_callbacks callbacks ∅) /\
  num_epochs self = Configuration.num_epochs config0.
Proof.
  intros Hself. unfold Trainer_init in Hself. destruct Accelerator as [cls|].
  - rewrite !res_bind in Hself.
    destruct (configure_callbacks callbacks ∅) as [d [e|]];
      simpl in Hself; [discriminate|].
    inversion Hself; subst. simpl. auto.
  - simpl in Hself. discriminate.
Qed.

(** C3, as amended: in a process where the accelerate library was
    imported, [Trainer.__init__] returns a trainer if and only if every
    key of the callbacks dictionary is one of the six whitelisted names;
    a dictionary with a key outside the whitelist makes it raise
    [ValueError] naming such a key; and the loop that binds the hooks
    never writes a name outside the whitelist, whether it raises or
    not, so a trainer that was built has no such name bound. *)
Theorem init_accepts_whitelisted_callbacks cls model0 train0 valid0
    criterion0 optimizer0 scheduler0 config0 callbacks (w : World) :
  accelerate = Some cls ->
  (forall name, name ∈ callbacks_whitelist <->
     name = "preprocess" \/ name = "augmentations" \/ name = "evaluate" \/
     name = "fit" \/ name = "checkpoint" \/ name = "terminate") /\
  ((exists self,
      res (Trainer_init model0 train0 valid0 criterion0 optimizer0
             scheduler0 config0 callbacks w) = inr self) <->
   Forall (fun kv => fst kv ∈ callbacks_whitelist) callbacks) /\
  (Exists (fun kv => fst kv ∉ callbacks_whitelist) callbacks ->
   exists name, (name ∈ callbacks.*1) /\ (name ∉ callbacks_whitelist) /\
     res (Trainer_init model0 train0 valid0 criterion0 optimizer0
            scheduler0 config0 callbacks w)
     = inl (ValueError ("Not supported: " ++ name ++ ".")%string)) /\
  (forall d name, name ∉ callbacks_whitelist ->
     fst (configure_callbacks callbacks d) !! name = d !! name) /\
  (forall self name,
     res (Trainer_init model0 train0 valid0 criterion0 optimizer0
            scheduler0 config0 callbacks w) = inr self ->
     name ∉ callbacks_whitelist -> dict self !! name = None).
Proof.
  intros Hacc.
  pose proof (Trainer_init_installed cls model0 train0 valid0 criterion0
                optimizer0 scheduler0 config0 callbacks w Hacc) as Hinit.
  split; [exact whitelist_names|].
  split; [|split; [|split]].
  - rewrite <- (configure_callbacks_ok callbacks ∅).
    destruct (snd (configure_callbacks callbacks ∅)) as [e|].
    + split; [|discriminate]. intros [self Hself]. congruence.
    + split; [reflexivity|]. intros _.
      destruct Hinit as (self & Hself & _). exists self. exact Hself.
  - intros HE.
    destruct (configure_callbacks_raises callbacks ∅ HE)
      as (name & Hin & Hnw & Heq).
    exists name. rewrite Heq in Hinit. auto.
  - intros d name Hn. apply configure_callbacks_frame. exact Hn.
  - intros self name Hself Hn.
    destruct (snd (configure_callbacks callbacks ∅)) as [e|]; [congruence|].
    destruct Hinit as (self' & Hself' & Hd & _).
    assert (self = self') by congruence. subst self'.
    rewrite Hd, configure_callbacks_frame by exact Hn.
    apply lookup_empty.
Qed.

(** C6: the class's [preprocess] and [augmentations] return their
    argument unchanged and leave the world as it is; the class's
    [evaluate], [checkpoint] and [terminate] take whatever arguments,
    leave the world as it is and return [None]. *)
Theorem default_stages_identity_or_noop (x : value) (args : list value)
    (w : World) :
  Trainer_preprocess [x] w = (x, w) /\
  Trainer_augmentations [x] w = (x, w) /\
  Trainer_evaluate [] w = (VNone, w) /\
  Trainer_checkpoint args w = (VNone, w) /\
  Trainer_terminate args w = (VNone, w).
Proof. repeat split. Qed.

(** C8: when the accelerate library could not be imported,
    [Trainer.__init__] raises [ModuleNotFoundError] having made no call
    at all: nothing was prepared, the world is as it was, and no trainer
    is returned. *)
Theorem init_without_accelerate model0 train0 valid0 criterion0 optimizer0
    scheduler0 config0 callbacks (w : World) :
  accelerate = None ->
  Trainer_init model0 train0 valid0 criterion0 optimizer0 scheduler0
    config0 callbacks w
  = mkOutcome
      (inl (ModuleNotFoundError
              "accelerate library is not installed: pip install kornia[x]"))
      w [].
Proof.
  intros Hacc. unfold Trainer_init, Accelerator. rewrite Hacc. reflexivity.
Qed.

End Construction.

Section MeterFacts.

Import AverageMeter.

Implicit Types (m : AverageMeter.t) (us : list (Q * Z)).

Lemma feed_snoc m us (v : Q) (n : Z) :
  feed m (us ++ [(v, n)]) = update (feed m us) v n.
Proof. unfold feed. rewrite fold_left_app. reflexivity. Qed.

Lemma feed_sum m us : (sum (feed m us) == sum m + weighted_sum us)%Q.
Proof.
  revert m. induction us as [|[v n] us IH]; intros m.
  - unfold feed. simpl. ring.
  - change (feed m ((v, n) :: us)) with (feed (update m v n) us).
    rewrite IH. simpl. ring.
Qed.

Lemma feed_count m us : count (feed m us) = count m + total_count us.
Proof.
  revert m. induction us as [|[v n] us IH]; intros m.
  - unfold feed. simpl. lia.
  - change (feed m ((v, n) :: us)) with (feed (update m v n) us).
    rewrite IH. simpl. lia.
Qed.

(** The average is the running sum over the running count, from the
    first update on and for the fresh meter. *)
Lemma feed_avg m us :
  (avg m == sum m / inject_Z (count m))%Q ->
  (avg (feed m us) == sum (feed m us) / inject_Z (count (feed m us)))%Q.
Proof.
  intros Hm. induction us as [|[v n] us' _] using rev_ind.
  - exact Hm.
  - rewrite feed_snoc. simpl. reflexivity.
Qed.

Lemma feed_new_avg us : (avg (feed new us) == weighted_mean us)%Q.
Proof.
  rewrite feed_avg by reflexivity.
  unfold weighted_mean. rewrite feed_sum, feed_count. simpl.
  rewrite Qplus_0_l. reflexivity.
Qed.

End MeterFacts.

Section TrainingPass.

Context {World : Type} `{!Backend World}.

Implicit Types (self : Trainer World) (w : World).

Lemma train_step_trace self epoch sample_id sample losses w :
  batch_trace self epoch (trc (train_step self epoch sample_id sample losses w)).
Proof.
  destruct sample as [source target]. unfold train_step, backward, call_method.
  do 7 run_extern.
  rewrite trc_bind. unfold losses_update at 1. cbn [res wld trc].
  apply (batch_trace_intro self epoch source v v0 v1 target v2 w6).
  rewrite trc_bind. cbn [ret trc]. rewrite app_nil_r.
  destruct (sample_id mod 50 =? 0); cbn [log_train ret trc].
  - constructor; [|constructor]. eauto.
  - constructor.
Qed.

Lemma train_step_meter self epoch sample_id sample losses w :
  res (train_step self epoch sample_id sample losses w)
  = AverageMeter.feed losses
      (meter_updates (trc (train_step self epoch sample_id sample losses w))).
Proof.
  destruct sample as [source target]. unfold train_step, backward, call_method.
  do 7 run_extern.
  rewrite trc_bind, res_bind. unfold losses_update.
  cbn [res wld trc]. rewrite trc_bind, res_bind. cbn [ret res trc].
  destruct (sample_id mod 50 =? 0); reflexivity.
Qed.

Lemma train_loop_trace self epoch sample_id samples losses w :
  exists batches,
    trc (train_loop self epoch sample_id samples losses w) = concat batches /\
    length batches = length samples /\
    Forall (batch_trace self epoch) batches.
Proof.
  revert sample_id losses w.
  induction samples as [|sample samples IH]; intros sample_id losses w.
  - exists []. repeat split. constructor.
  - cbn [train_loop]. rewrite trc_bind.
    destruct (IH (sample_id + 1)
                (res (train_step self epoch sample_id sample losses w))
                (wld (train_step self epoch sample_id sample losses w)))
      as (batches & Htr & Hlen & Hall).
    exists (trc (train_step self epoch sample_id sample losses w) :: batches).
    rewrite Htr. split; [reflexivity|]. split.
    + simpl. rewrite Hlen. reflexivity.
    + constructor; [apply train_step_trace | exact Hall].
Qed.

Lemma meter_updates_app (tr1 tr2 : list event) :
  meter_updates (tr1 ++ tr2) = meter_updates tr1 ++ meter_updates tr2.
Proof. apply omap_app. Qed.

Lemma feed_app (m : AverageMeter.t) (us1 us2 : list (Q * Z)) :
  AverageMeter.feed m (us1 ++ us2)
  = AverageMeter.feed (AverageMeter.feed m us1) us2.
Proof. unfold AverageMeter.feed. apply fold_left_app. Qed.

Lemma train_loop_meter self epoch sample_id samples losses w :
  res (train_loop self epoch sample_id samples losses w)
  = AverageMeter.feed losses
      (meter_updates (trc (train_loop self epoch sample_id samples losses w))).
Proof.
  revert sample_id losses w.
  induction samples as [|sample samples IH]; intros sample_id losses w.
  - reflexivity.
  - cbn [train_loop]. rewrite trc_bind, res_bind, meter_updates_app, feed_app.
    rewrite IH, <- train_step_meter. reflexivity.
Qed.

(** The events of a training pass: the switch to training mode, the
    pass over the data loader, then one batch after the other. *)
Lemma fit_epoch_losses_trace self epoch w :
  exists n batches,
    trc (fit_epoch_losses self epoch w)
    = EModelTrain :: EIter n :: concat batches /\
    length batches = n /\
    Forall (batch_trace self epoch) batches.
Proof.
  unfold fit_epoch_losses. do 2 run_extern.
  destruct (train_loop_trace self epoch 0 l AverageMeter.new w1)
    as (batches & Htr & Hlen & Hall).
  exists (length l), batches. rewrite Htr. auto.
Qed.

Lemma fit_epoch_losses_meter self epoch w :
  res (fit_epoch_losses self epoch w)
  = AverageMeter.feed AverageMeter.new
      (meter_updates (trc (fit_epoch_losses self epoch w))).
Proof.
  unfold fit_epoch_losses. do 2 run_extern.
  cbn [meter_updates omap meter_update_of]. apply train_loop_meter.
Qed.

(** Log records are no stage, no meter update and no gradient work. *)
Lemma log_inert self epoch (log : list event) :
  Forall (fun e => exists sample samples v a,
            e = ELogInfo (epoch + 1) (num_epochs self) sample samples v a)
         log ->
  stages log = [] /\ terminate_calls log = [] /\ meter_updates log = [] /\
  omap backward_loss log = [] /\ List.filter is_scheduler_step log = [] /\
  List.filter is_optimizer_step log = [] /\
  List.filter is_terminate_call log = [] /\
  (forall pending rest, steps_see pending (log ++ rest) = steps_see pending rest).
Proof.
  induction 1 as [|e log (sample & samples & v & a & ->) _ IH].
  - repeat split.
  - destruct IH as (H1 & H2 & H3 & H4 & H5 & H6 & H7 & H8).
    unfold stages, terminate_calls, meter_updates in *.
    cbn [omap list_omap stage_of terminate_call meter_update_of backward_loss
         List.filter is_scheduler_step is_optimizer_step is_terminate_call].
    repeat split; assumption.
Qed.

Lemma batch_trace_stages self epoch (b : list event) :
  batch_trace self epoch b -> stages b = batch_order.
Proof.
  intros [source img img' output target loss w' log Hlog].
  destruct (log_inert self epoch log Hlog) as (H1 & _).
  unfold stages in *. rewrite omap_app, H1. reflexivity.
Qed.

Lemma batch_trace_meter self epoch (b : list event) :
  batch_trace self epoch b -> exists u, meter_updates b = [u].
Proof.
  intros [source img img' output target loss w' log Hlog].
  destruct (log_inert self epoch log Hlog) as (_ & _ & H3 & _).
  unfold meter_updates in *. rewrite omap_app, H3. eexists. reflexivity.
Qed.

Lemma batch_trace_counts self epoch (b : list event) :
  batch_trace self epoch b ->
  terminate_calls b = [] /\ List.filter is_terminate_call b = [] /\
  List.filter is_scheduler_step b = [] /\
  count_events is_optimizer_step b = 1%nat.
Proof.
  intros [source img img' output target loss w' log Hlog].
  destruct (log_inert self epoch log Hlog) as (_ & H2 & _ & _ & H5 & H6 & H7 & _).
  unfold terminate_calls, count_events in *.
  rewrite omap_app, !List.filter_app, H2, H5, H6, H7. repeat split.
Qed.

Lemma batch_trace_gradients self epoch (b : list event) :
  batch_trace self epoch b ->
  exists loss, omap backward_loss b = [loss] /\
    forall pending rest,
      steps_see pending (b ++ rest) = [loss] :: steps_see [loss] rest.
Proof.
  intros [source img img' output target loss w' log Hlog].
  destruct (log_inert self epoch log Hlog) as (_ & _ & _ & H4 & _ & _ & _ & H8).
  exists loss. split.
  - rewrite omap_app, H4. reflexivity.
  - intros pending rest. rewrite <- app_assoc.
    cbn [app steps_see]. rewrite H8. reflexivity.
Qed.

Lemma batches_stages self epoch (batches : list (list event)) :
  Forall (batch_trace self epoch) batches ->
  stages (concat batches) = training_pass (length batches).
Proof.
  induction 1 as [|b batches Hb _ IH]; [reflexivity|].
  cbn [concat]. unfold stages in *. rewrite omap_app, IH.
  fold (stages b). rewrite (batch_trace_stages self epoch b Hb). reflexivity.
Qed.

Lemma batches_counts self epoch (batches : list (list event)) :
  Forall (batch_trace self epoch) batches ->
  terminate_calls (concat batches) = [] /\
  List.filter is_terminate_call (concat batches) = [] /\
  List.filter is_scheduler_step (concat batches) = [] /\
  count_events is_optimizer_step (concat batches) = length batches.
Proof.
  induction 1 as [|b batches Hb _ (H1 & H2 & H3 & H4)]; [repeat split|].
  destruct (batch_trace_counts self epoch b Hb) as (B1 & B2 & B3 & B4).
  unfold terminate_calls, count_events in *. cbn [concat].
  rewrite omap_app, !List.filter_app, H1, H2, H3, B1, B2, B3.
  repeat split. rewrite length_app, B4, H4. reflexivity.
Qed.

Lemma batches_meter self epoch (batches : list (list event)) :
  Forall (batch_trace self epoch) batches ->
  Forall2 (fun b u => meter_updates b = [u]) batches
          (meter_updates (concat batches)).
Proof.
  induction 1 as [|b batches Hb _ IH]; [constructor|].
  destruct (batch_trace_meter self epoch b Hb) as (u & Hu).
  cbn [concat]. rewrite meter_updates_app, Hu. constructor; assumption.
Qed.

Lemma batches_gradients self epoch (batches : list (list event)) pending :
  Forall (batch_trace self epoch) batches ->
  Forall2 (fun b seen => exists loss,
             omap backward_loss b = [loss] /\ seen = [loss])
          batches (steps_see pending (concat batches)).
Proof.
  intros Hall. revert pending.
  induction Hall as [|b batches Hb _ IH]; intros pending; [constructor|].
  destruct (batch_trace_gradients self epoch b Hb) as (loss & Hloss & Hsee).
  cbn [concat]. rewrite Hsee. constructor; [eauto | apply IH].
Qed.

Lemma Trainer_fit_epoch_trace self epoch w :
  trc (Trainer_fit_epoch self epoch w) = trc (fit_epoch_losses self epoch w).
Proof.
  unfold Trainer_fit_epoch. rewrite trc_bind. cbn [ret trc]. apply app_nil_r.
Qed.

(** C7: the meter of a training pass receives exactly one update per
    batch, made of that batch's loss value and of the first dimension
    of its augmented input; at the end of the pass its current value is
    the value of the last update and its average is the count-weighted
    mean of all updates since it was created: the sum of value times
    count over the sum of the counts. *)
Theorem meter_tracks_training_pass self epoch w :
  exists n batches,
    trc (fit_epoch_losses self epoch w)
    = EModelTrain :: EIter n :: concat batches /\
    length batches = n /\
    Forall (batch_trace self epoch) batches /\
    Forall2 (fun b u => meter_updates b = [u]) batches
            (meter_updates (trc (fit_epoch_losses self epoch w))) /\
    res (fit_epoch_losses self epoch w)
    = AverageMeter.feed AverageMeter.new
        (meter_updates (trc (fit_epoch_losses self epoch w))) /\
    (forall us v k,
       meter_updates (trc (fit_epoch_losses self epoch w)) = us ++ [(v, k)] ->
       AverageMeter.val (res (fit_epoch_losses self epoch w)) = v) /\
    (AverageMeter.avg (res (fit_epoch_losses self epoch w))
     == AverageMeter.weighted_mean
          (meter_updates (trc (fit_epoch_losses self epoch w))))%Q.
Proof.
  destruct (fit_epoch_losses_trace self epoch w) as (n & batches & Htr & Hlen & Hall).
  exists n, batches. split; [exact Htr|]. split; [exact Hlen|].
  split; [exact Hall|]. rewrite fit_epoch_losses_meter. split; [|split; [|split]].
  - rewrite Htr. apply (batches_meter self epoch batches Hall).
  - reflexivity.
  - intros us v k Hus. rewrite Hus, feed_snoc. reflexivity.
  - apply feed_new_avg.
Qed.

(** C10: a training pass is a sequence of batches, and every batch
    starts with [optimizer.zero_grad()], followed by the hooks, the
    forward pass, the loss, [backward] and [optimizer.step()]; hence,
    whatever gradients were stored before the pass, every optimizer
    step of the pass works on the gradients of one loss only, the loss
    of its own batch. *)
Theorem zero_grad_opens_every_batch self epoch w :
  exists n batches,
    trc (Trainer_fit_epoch self epoch w)
    = EModelTrain :: EIter n :: concat batches /\
    length batches = n /\
    Forall (batch_trace self epoch) batches /\
    forall pending,
      Forall2 (fun b seen => exists loss,
                 omap backward_loss b = [loss] /\ seen = [loss])
              batches
              (steps_see pending (trc (Trainer_fit_epoch self epoch w))).
Proof.
  rewrite Trainer_fit_epoch_trace.
  destruct (fit_epoch_losses_trace self epoch w) as (n & batches & Htr & Hlen & Hall).
  exists n, batches. rewrite Htr. repeat split; try assumption.
  intros pending. cbn [steps_see].
  apply (batches_gradients self epoch batches pending Hall).
Qed.

End TrainingPass.

Section ListFacts.

Context {A : Type}.


End ListFacts.

Lemma range_length (n : Z) : length (range n) = Z.to_nat n.
Proof. unfold range. rewrite length_map, length_seq. reflexivity. Qed.



(** Run the external call at the head of a computation, name what it
    returned and keep the equation. *)
Ltac run_extern_eq a w' E :=
  lazymatch goal with
  | |- context [bind (extern ?f ?ev) ?k ?w] =>
      rewrite (bind_extern f ev k w);
      destruct (f w) as [a w'] eqn:E;
      cbn [fst snd]; cbv zeta; cbn [res wld trc]
  end.

Section BatchRuns.

Context {World : Type} `{!Backend World}.

Implicit Types (self : Trainer World) (w : World).

Lemma train_step_run self epoch sample_id sample losses w :
  batch_run self epoch sample
    (trc (train_step self epoch sample_id sample losses w)).
Proof.
  destruct sample as [source target]. unfold train_step, backward, call_method.
  run_extern_eq u0 w0 E0. run_extern_eq img w1 E1. run_extern_eq img' w2 E2.
  run_extern_eq output w3 E3. run_extern_eq loss w4 E4.
  run_extern_eq u5 w5 E5. run_extern_eq u6 w6 E6.
  rewrite trc_bind. unfold losses_update at 1. cbn [res wld trc].
  apply (batch_run_intro self epoch (source, target) w0 w1 w2 w3 w6
           img img' output loss); cbn [fst snd].
  - rewrite E1. reflexivity.
  - rewrite E2. reflexivity.
  - rewrite E3. reflexivity.
  - rewrite E4. reflexivity.
  - rewrite trc_bind. cbn [ret trc]. rewrite app_nil_r.
    destruct (sample_id mod 50 =? 0); cbn [log_train ret trc].
    + constructor; [|constructor]. eauto.
    + constructor.
Qed.

Lemma batch_run_trace self epoch sample (b : list event) :
  batch_run self epoch sample b -> batch_trace self epoch b.
Proof.
  intros [w1 w2 w3 w4 w5 img img' output loss log _ _ _ _ Hlog].
  apply batch_trace_intro. exact Hlog.
Qed.

Lemma batch_runs_traces self epoch samples (batches : list (list event)) :
  Forall2 (batch_run self epoch) samples batches ->
  Forall (batch_trace self epoch) batches.
Proof.
  induction 1 as [|sample b samples batches Hb _ IH]; constructor.
  - exact (batch_run_trace self epoch sample b Hb).
  - exact IH.
Qed.

Lemma train_loop_run self epoch sample_id samples losses w :
  exists batches,
    trc (train_loop self epoch sample_id samples losses w) = concat batches /\
    Forall2 (batch_run self epoch) samples batches.
Proof.
  revert sample_id losses w.
  induction samples as [|sample samples IH]; intros sample_id losses w.
  - exists []. split; [reflexivity | constructor].
  - cbn [train_loop]. rewrite trc_bind.
    destruct (IH (sample_id + 1)
                (res (train_step self epoch sample_id sample losses w))
                (wld (train_step self epoch sample_id sample losses w)))
      as (batches & Htr & Hall).
    exists (trc (train_step self epoch sample_id sample losses w) :: batches).
    rewrite Htr. split; [reflexivity|].
    constructor; [apply train_step_run | exact Hall].
Qed.

(** A training pass, batch by batch, on what the training loader yields. *)
Lemma fit_epoch_run self epoch w :
  exists w1 batches,
    trc (Trainer_fit_epoch self epoch w)
    = EModelTrain :: EIter (length batches) :: concat batches /\
    Forall2 (batch_run self epoch)
      (fst (dataloader_iter (train_dataloader self) w1)) batches.
Proof.
  rewrite Trainer_fit_epoch_trace. unfold fit_epoch_losses.
  run_extern_eq u0 w0 E0. run_extern_eq samples w1 E1.
  destruct (train_loop_run self epoch 0 samples AverageMeter.new w1)
    as (batches & Htr & Hall).
  exists w0, batches. rewrite Htr, E1. cbn [fst].
  rewrite (Forall2_length _ _ _ Hall). auto.
Qed.

Lemma log_no_checks self epoch (log : list event) :
  Forall (fun e => exists sample samples v a,
            e = ELogInfo (epoch + 1) (num_epochs self) sample samples v a)
         log ->
  stop_checks log = [] /\ forall name args ret, EHook name args ret ∉ log.
Proof.
  induction 1 as [|e log (sample & samples & v & a & ->) _ (IH1 & IH2)].
  - split; [reflexivity|]. intros name args ret H. inversion H.
  - split; [exact IH1|]. intros name args ret H.
    apply elem_of_cons in H as [H|H]; [discriminate|]. exact (IH2 _ _ _ H).
Qed.

Lemma batches_no_checks self epoch (batches : list (list event)) :
  Forall (batch_trace self epoch) batches -> stop_checks (concat batches) = [].
Proof.
  induction 1 as [|b batches Hb _ IH]; [reflexivity|].
  destruct Hb as [source img img' output target loss w' log Hlog].
  destruct (log_no_checks self epoch log Hlog) as (Hnone & _).
  cbn [concat]. unfold stop_checks in *. rewrite !omap_app, Hnone, IH.
  reflexivity.
Qed.

(** What a training pass contributes to the readings of a trace. *)
Lemma pass_readings self epoch (n : nat) (batches : list (list event)) :
  Forall (batch_trace self epoch) batches ->
  stages (EModelTrain :: EIter n :: concat batches)
  = training_pass (length batches) /\
  terminate_calls (EModelTrain :: EIter n :: concat batches) = [] /\
  List.filter is_terminate_call (EModelTrain :: EIter n :: concat batches) = [] /\
  List.filter is_scheduler_step (EModelTrain :: EIter n :: concat batches) = [] /\
  stop_checks (EModelTrain :: EIter n :: concat batches) = [].
Proof.
  intros Hall.
  destruct (batches_counts self epoch batches Hall) as (H1 & H2 & H3 & _).
  split; [|split; [|split; [|split]]].
  - apply (batches_stages self epoch batches Hall).
  - exact H1.
  - exact H2.
  - exact H3.
  - apply (batches_no_checks self epoch batches Hall).
Qed.

Lemma py_eq_member_trc (a : value) (member : TrainerState) w :
  trc (py_eq_member a member w)
  = [ECompare a (VState member) (res (py_eq_member a member w))].
Proof.
  destruct a; unfold py_eq_member; rewrite trc_extern, res_extern; reflexivity.
Qed.

(** [None], integers and enumeration members are equal to a member only
    when they are that member. *)
Lemma py_eq_member_plain (a : value) (member : TrainerState) w :
  (forall id, a <> VObj id) ->
  res (py_eq_member a member w) = bool_decide (a = VState member).
Proof.
  intros Hplain. destruct a; try reflexivity. destruct (Hplain id eq_refl).
Qed.

End BatchRuns.

Section Epochs.

Context {World : Type} `{!Backend World}.

Implicit Types (self : Trainer World) (w : World) (es : list Z).

(** One turn of the loop of [fit]. *)
Lemma fit_loop_cons self (e : Z) es w :
  exists batches valid_stats ck state stop w',
    trc (fit_loop self (e :: es) w)
    = (EModelTrain :: EIter (length batches) :: concat batches)
      ++ [EHook "evaluate" [] valid_stats;
          EHook "checkpoint" [model self; VInt e; valid_stats] ck;
          EHook "terminate" [model self; VInt e; valid_stats] state;
          ECompare state (VState TERMINATE) stop]
      ++ (if stop then [] else ESchedulerStep :: trc (fit_loop self es w')) /\
    Forall (batch_trace self e) batches /\
    epoch_run self e
      ((EModelTrain :: EIter (length batches) :: concat batches)
       ++ [EHook "evaluate" [] valid_stats;
           EHook "checkpoint" [model self; VInt e; valid_stats] ck;
           EHook "terminate" [model self; VInt e; valid_stats] state;
           ECompare state (VState TERMINATE) stop]
       ++ (if stop then [] else [ESchedulerStep])) /\
    ((forall id, state <> VObj id) ->
     stop = bool_decide (state = VState TERMINATE)).
Proof.
  cbn [fit_loop]. rewrite trc_bind.
  destruct (fit_epoch_run self e w) as (wl & batches & -> & Hruns).
  generalize (wld (Trainer_fit_epoch self e w)). intros w1.
  unfold call_method.
  run_extern_eq stats w2 E2. run_extern_eq ck w3 E3. run_extern_eq state w4 E4.
  rewrite trc_bind, py_eq_member_trc.
  set (stop := res (py_eq_member state TERMINATE w4)).
  assert (Hrun : epoch_run self e
            ((EModelTrain :: EIter (length batches) :: concat batches)
             ++ [EHook "evaluate" [] stats;
                 EHook "checkpoint" [model self; VInt e; stats] ck;
                 EHook "terminate" [model self; VInt e; stats] state;
                 ECompare state (VState TERMINATE) stop]
             ++ (if stop then [] else [ESchedulerStep]))).
  { apply (epoch_run_intro self e wl w1 w2 w3 w4 batches stats ck state stop Hruns).
    - rewrite E2. reflexivity.
    - rewrite E3. reflexivity.
    - rewrite E4. reflexivity.
    - reflexivity. }
  assert (Hplain : (forall id, state <> VObj id) ->
                   stop = bool_decide (state = VState TERMINATE)).
  { intros Hp. apply (py_eq_member_plain state TERMINATE w4 Hp). }
  pose proof (batch_runs_traces self e _ batches Hruns) as Hall.
  clearbody stop. destruct stop.
  - exists batches, stats, ck, state, true, w4. cbn [ret trc].
    repeat split; assumption.
  - run_extern.
    exists batches, stats, ck, state, false, w0.
    repeat split; assumption.
Qed.

Lemma fit_loop_order self es w : fit_order (stages (trc (fit_loop self es w))).
Proof.
  revert w. induction es as [|e es IH]; intros w.
  - constructor.
  - destruct (fit_loop_cons self e es w)
      as (batches & stats & ck & st & stop & w' & -> & Hall & _).
    destruct (pass_readings self e (length batches) batches Hall) as (Hst & _).
    unfold stages in *. rewrite !omap_app, Hst.
    destruct stop.
    + rewrite app_nil_r. apply fit_order_break.
    + apply (fit_order_next (length batches)). apply IH.
Qed.

(** C1: the stages a run of [Trainer.fit] goes through are, epoch after
    epoch, the batches of the training pass (each one preprocess,
    augmentations, forward, loss, backward, optimizer step), then
    evaluate, checkpoint and the terminate check, then the schedule
    step; no stage occurs anywhere else.  The only epoch without the
    closing schedule step is one that ends the run at its terminate
    check. *)
Theorem fit_stages_in_fixed_order self w :
  fit_order (stages (trc (Trainer_fit self w))).
Proof. apply fit_loop_order. Qed.

Lemma stop_checks_app (tr1 tr2 : list event) :
  stop_checks (tr1 ++ tr2) = stop_checks tr1 ++ stop_checks tr2.
Proof. apply omap_app. Qed.

Lemma terminate_calls_app (tr1 tr2 : list event) :
  terminate_calls (tr1 ++ tr2) = terminate_calls tr1 ++ terminate_calls tr2.
Proof. apply omap_app. Qed.

Lemma scheduler_steps_app (tr1 tr2 : list event) :
  scheduler_steps (tr1 ++ tr2) = (scheduler_steps tr1 + scheduler_steps tr2)%nat.
Proof.
  unfold scheduler_steps, count_events.
  rewrite List.filter_app, length_app. reflexivity.
Qed.

(** The terminate calls, the checks and the scheduler steps of one turn
    of the loop. *)
Lemma fit_loop_cons_readings self (e : Z) es w :
  exists state (stop : bool) w',
    terminate_calls (trc (fit_loop self (e :: es) w))
    = (e, state)
      :: (if stop then [] else terminate_calls (trc (fit_loop self es w'))) /\
    stop_checks (trc (fit_loop self (e :: es) w))
    = stop :: (if stop then [] else stop_checks (trc (fit_loop self es w'))) /\
    scheduler_steps (trc (fit_loop self (e :: es) w))
    = (if stop then 0%nat
       else S (scheduler_steps (trc (fit_loop self es w')))) /\
    ((forall id, state <> VObj id) ->
     stop = bool_decide (state = VState TERMINATE)).
Proof.
  destruct (fit_loop_cons self e es w)
    as (batches & stats & ck & st & stop & w' & -> & Hall & _ & Hplain).
  destruct (pass_readings self e (length batches) batches Hall)
    as (_ & Hcalls & _ & Hsched & Hchecks).
  exists st, stop, w'.
  rewrite !terminate_calls_app, !stop_checks_app, !scheduler_steps_app.
  rewrite Hcalls, Hchecks. unfold scheduler_steps at 1, count_events.
  rewrite Hsched.
  destruct stop; repeat split; try reflexivity; exact Hplain.
Qed.

Lemma fit_loop_epochs self es w :
  exists pieces,
    trc (fit_loop self es w) = concat pieces /\
    Forall2 (epoch_run self) (take (length pieces) es) pieces /\
    (terminated (trc (fit_loop self es w)) = false ->
     length pieces = length es).
Proof.
  revert w. induction es as [|e es IH]; intros w.
  - exists []. repeat split. constructor.
  - destruct (fit_loop_cons self e es w)
      as (batches & stats & ck & st & stop & w' & Htr & Hall & Hrun & _).
    destruct (pass_readings self e (length batches) batches Hall)
      as (_ & _ & _ & _ & Hchecks).
    assert (Hterm : terminated (trc (fit_loop self (e :: es) w))
                    = stop || (if stop then false
                               else terminated (trc (fit_loop self es w')))).
    { rewrite Htr. unfold terminated.
      rewrite !stop_checks_app, Hchecks. destruct stop; reflexivity. }
    rewrite Hterm, Htr. destruct stop.
    + match type of Hrun with epoch_run _ _ ?p => exists [p] end.
      split; [|split].
      * cbn [concat]. rewrite !app_nil_r. reflexivity.
      * cbn [length take]. constructor; [exact Hrun | constructor].
      * discriminate.
    + destruct (IH w') as (pieces & Hrest & Hruns & Hlen).
      match type of Hrun with epoch_run _ _ ?p => exists (p :: pieces) end.
      split; [|split].
      * cbn [concat]. rewrite Hrest, <- !app_assoc. reflexivity.
      * cbn [length take]. constructor; [exact Hrun | exact Hruns].
      * cbn [orb length]. intros Hnot. rewrite (Hlen Hnot). reflexivity.
Qed.

(** C2: on a trainer that [__init__] built from a configuration,
    [Trainer.fit] runs the epochs 0, 1, ... in this order, each one a
    training pass over what the training loader yields, followed by the
    validation pass [evaluate] (then checkpoint, the terminate check and
    the schedule step); and unless a terminate check stops the loop, it
    runs all of [range(config.num_epochs)]. *)
Theorem fit_runs_the_configured_epochs model0 train0 valid0 criterion0
    optimizer0 scheduler0 config0 callbacks (w0 : World) self w :
  res (Trainer_init model0 train0 valid0 criterion0 optimizer0
         scheduler0 config0 callbacks w0) = inr self ->
  exists pieces,
    trc (Trainer_fit self w) = concat pieces /\
    Forall2 (epoch_run self)
      (take (length pieces) (range (Configuration.num_epochs config0)))
      pieces /\
    (terminated (trc (Trainer_fit self w)) = false ->
     length pieces = Z.to_nat (Configuration.num_epochs config0) /\
     Forall2 (epoch_run self) (range (Configuration.num_epochs config0))
       pieces).
Proof.
  intros Hself.
  destruct (Trainer_init_returned _ _ _ _ _ _ _ _ _ _ Hself) as (_ & _ & Hn).
  unfold Trainer_fit. rewrite Hn.
  destruct (fit_loop_epochs self (range (Configuration.num_epochs config0)) w)
    as (pieces & Htr & Hruns & Hall).
  exists pieces. split; [exact Htr|]. split; [exact Hruns|].
  intros Hnot. specialize (Hall Hnot). rewrite range_length in Hall.
  split; [exact Hall|].
  rewrite <- (firstn_all (range (Configuration.num_epochs config0))).
  rewrite range_length, <- Hall. exact Hruns.
Qed.







Lemma fit_loop_scheduler_all self es w :
  terminated (trc (fit_loop self es w)) = false ->
  scheduler_steps (trc (fit_loop self es w)) = length es.
Proof.
  revert w. induction es as [|e es IH]; intros w; [reflexivity|].
  destruct (fit_loop_cons_readings self e es w)
    as (st & stop & w' & _ & Hchecks & -> & _).
  unfold terminated in *. rewrite Hchecks. cbn [existsb].
  destruct stop; cbn [orb]; [discriminate|].
  intros Hnot. cbn [length]. rewrite (IH w' Hnot). reflexivity.
Qed.


End Epochs.

Section SuppliedHooks.

Context {World : Type} `{!Backend World}.

Implicit Types (self : Trainer World) (w : World).

Lemma Forall2_elem_r {A B} (R : A -> B -> Prop) (l : list A) (k : list B) (y : B) :
  Forall2 R l k -> y ∈ k -> exists x, R x y.
Proof.
  induction 1 as [|x y' l k Hxy _ IH]; intros Hin.
  - inversion Hin.
  - apply elem_of_cons in Hin as [->|Hin]; [eauto | exact (IH Hin)].
Qed.

Lemma hook_calls_concat (name : string) (f : callable World)
    (pieces : list (list event)) :
  (forall p, p ∈ pieces -> hook_calls_are name f p) ->
  hook_calls_are name f (concat pieces).
Proof.
  intros Hall args ret Hin.
  apply list_elem_of_In, in_concat in Hin as (p & Hp & Hin).
  apply (Hall p); [apply list_elem_of_In; exact Hp|].
  apply list_elem_of_In. exact Hin.
Qed.

(** The hook calls of a batch are calls of what attribute lookup finds. *)
Lemma batch_run_hooks self epoch sample (b : list event) (name : string) :
  batch_run self epoch sample b ->
  hook_calls_are name (lookup_method self name (Trainer_class name)) b.
Proof.
  intros [w1 w2 w3 w4 w5 img img' output loss log -> -> _ _ Hlog] args ret Hin.
  destruct (log_no_checks self epoch log Hlog) as (_ & Hnone).
  apply elem_of_app in Hin as [Hin|Hin]; [|destruct (Hnone _ _ _ Hin)].
  repeat (apply elem_of_cons in Hin as [Hin|Hin];
          [inversion Hin; subst; eexists; reflexivity|]).
  inversion Hin.
Qed.

Lemma epoch_run_hooks self epoch (piece : list event) (name : string) :
  epoch_run self epoch piece ->
  hook_calls_are name (lookup_method self name (Trainer_class name)) piece.
Proof.
  intros [w1 w2 w3 w4 w5 batches stats ck state stop Hruns -> -> -> _]
         args ret Hin.
  apply elem_of_app in Hin as [Hin|Hin].
  - apply elem_of_cons in Hin as [Hin|Hin]; [discriminate|].
    apply elem_of_cons in Hin as [Hin|Hin]; [discriminate|].
    revert args ret Hin. apply hook_calls_concat. intros b Hb.
    destruct (Forall2_elem_r _ _ _ b Hruns Hb) as (sample & Hrun).
    exact (batch_run_hooks self epoch sample b name Hrun).
  - apply elem_of_app in Hin as [Hin|Hin].
    + repeat (apply elem_of_cons in Hin as [Hin|Hin];
              [inversion Hin; subst; eexists; reflexivity|]).
      inversion Hin.
    + destruct stop; [inversion Hin|].
      apply list_elem_of_singleton in Hin. discriminate.
Qed.

Lemma fit_epoch_hooks self epoch w (name : string) :
  hook_calls_are name (lookup_method self name (Trainer_class name))
    (trc (Trainer_fit_epoch self epoch w)).
Proof.
  destruct (fit_epoch_run self epoch w) as (w1 & batches & -> & Hruns).
  intros args ret Hin.
  apply elem_of_cons in Hin as [Hin|Hin]; [discriminate|].
  apply elem_of_cons in Hin as [Hin|Hin]; [discriminate|].
  revert args ret Hin. apply hook_calls_concat. intros b Hb.
  destruct (Forall2_elem_r _ _ _ b Hruns Hb) as (sample & Hrun).
  exact (batch_run_hooks self epoch sample b name Hrun).
Qed.

Lemma fit_hooks self w (name : string) :
  hook_calls_are name (lookup_method self name (Trainer_class name))
    (trc (Trainer_fit self w)).
Proof.
  unfold Trainer_fit.
  destruct (fit_loop_epochs self (range (num_epochs self)) w)
    as (pieces & -> & Hruns & _).
  apply hook_calls_concat. intros p Hp.
  destruct (Forall2_elem_r _ _ _ p Hruns Hp) as (epoch & Hrun).
  exact (epoch_run_hooks self epoch p name Hrun).
Qed.

(** C5: once [Trainer.__init__] has returned a trainer for a callbacks
    dictionary, every name the dictionary supplies is whitelisted and a
    call [self.<name>(args)] runs the supplied function on [args],
    whatever the class defines under that name; a name that was not
    supplied runs the class's implementation; [trainer.fit()] follows
    the same rule for the name [fit]; and in every training pass and
    every run of [Trainer.fit], each call of a stage returned what the
    supplied function returns on the arguments of the call when the
    stage was supplied, and what the class's implementation returns
    when it was not. *)
Theorem supplied_callbacks_replace_defaults model0 train0 valid0 criterion0
    optimizer0 scheduler0 config0 callbacks (w : World) (self : Trainer World) :
  NoDup callbacks.*1 ->
  res (Trainer_init model0 train0 valid0 criterion0 optimizer0
         scheduler0 config0 callbacks w) = inr self ->
  (forall name fn, (name, fn) ∈ callbacks ->
     (name ∈ callbacks_whitelist) /\
     (forall class_impl, lookup_method self name class_impl = fn) /\
     (forall class_impl args w',
        call_method self name class_impl args w'
        = extern (fn args) (EHook name args) w') /\
     (forall epoch w',
        hook_calls_are name fn (trc (Trainer_fit_epoch self epoch w'))) /\
     (forall w', hook_calls_are name fn (trc (Trainer_fit self w')))) /\
  (forall name, name ∉ callbacks.*1 ->
     (forall class_impl, lookup_method self name class_impl = class_impl) /\
     (forall class_impl args w',
        call_method self name class_impl args w'
        = extern (class_impl args) (EHook name args) w') /\
     (forall epoch w',
        hook_calls_are name (Trainer_class name : callable World)
          (trc (Trainer_fit_epoch self epoch w'))) /\
     (forall w',
        hook_calls_are name (Trainer_class name : callable World)
          (trc (Trainer_fit self w')))) /\
  (forall fn, ("fit", fn) ∈ callbacks ->
     forall w', fit self w' = extern (fn []) (EHook "fit" []) w') /\
  ("fit" ∉ callbacks.*1 ->
     forall w', fit self w' = bind (Trainer_fit self) (fun _ => ret VNone) w').
Proof.
  intros Hnd Hself.
  destruct (Trainer_init_returned _ _ _ _ _ _ _ _ _ _ Hself) as (Hok & Hd & _).
  assert (Hsup : forall name fn, (name, fn) ∈ callbacks ->
                   dict self !! name = Some fn).
  { intros name fn Hin. rewrite Hd.
    apply configure_callbacks_bound; assumption. }
  assert (Hnot : forall name, name ∉ callbacks.*1 -> dict self !! name = None).
  { intros name Hn. rewrite Hd, configure_callbacks_skip by exact Hn.
    apply lookup_empty. }
  split; [|split; [|split]].
  - intros name fn Hin.
    assert (Hfn : forall class_impl, lookup_method self name class_impl = fn).
    { intros impl. unfold lookup_method. rewrite (Hsup name fn Hin). reflexivity. }
    split; [|split; [|split; [|split]]].
    + apply configure_callbacks_ok in Hok.
      rewrite Forall_forall in Hok. apply (Hok (name, fn)). exact Hin.
    + exact Hfn.
    + intros impl args w'. unfold call_method. rewrite Hfn. reflexivity.
    + intros epoch w'. rewrite <- (Hfn (Trainer_class name)).
      apply fit_epoch_hooks.
    + intros w'. rewrite <- (Hfn (Trainer_class name)). apply fit_hooks.
  - intros name Hn.
    assert (Himpl : forall class_impl,
              lookup_method self name class_impl = class_impl).
    { intros impl. unfold lookup_method. rewrite (Hnot name Hn). reflexivity. }
    split; [|split; [|split]].
    + exact Himpl.
    + intros impl args w'. unfold call_method. rewrite Himpl. reflexivity.
    + intros epoch w'. rewrite <- (Himpl (Trainer_class name)) at 1.
      apply fit_epoch_hooks.
    + intros w'. rewrite <- (Himpl (Trainer_class name)) at 1. apply fit_hooks.
  - intros fn Hin w'. unfold fit. rewrite (Hsup "fit" fn Hin). reflexivity.
  - intros Hn w'. unfold fit. rewrite (Hnot "fit" Hn). reflexivity.
Qed.

End SuppliedHooks.


(** * The trainer at work on the small backend *)

Example fit_two_epochs_stages :
  stages (trc (Trainer_fit (Backend0 := Toy.backend true) (Toy.trainer 2 []) 0%nat))
  = training_pass 2 ++ [Evaluate; Checkpoint; TerminateCheck; ScheduleStep]
    ++ training_pass 2 ++ [Evaluate; Checkpoint; TerminateCheck; ScheduleStep].
Proof. vm_compute. reflexivity. Qed.

Example fit_stopped_at_epoch_1 :
  terminate_calls
    (trc (Trainer_fit (Backend0 := Toy.backend true)
            (Toy.trainer 5 [("terminate", Toy.stop_at 1)]) 0%nat))
  = [(0, VState TRAINING); (1, VState TERMINATE)] /\
  scheduler_steps
    (trc (Trainer_fit (Backend0 := Toy.backend true)
            (Toy.trainer 5 [("terminate", Toy.stop_at 1)]) 0%nat))
  = 1%nat.
Proof. vm_compute. split; reflexivity. Qed.

Example fit_no_epochs :
  trc (Trainer_fit (Backend0 := Toy.backend true) (Toy.trainer (-3) []) 0%nat) = [].
Proof. reflexivity. Qed.

Example meter_two_batches :
  AverageMeter.val (AverageMeter.feed AverageMeter.new [((1 # 2)%Q, 4); ((1 # 4)%Q, 4)])
  = (1 # 4)%Q /\
  Qeq (AverageMeter.avg
         (AverageMeter.feed AverageMeter.new [((1 # 2)%Q, 4); ((1 # 4)%Q, 4)]))
      (3 # 8)%Q.
Proof. split; reflexivity. Qed.

(** C2 on the small backend: two configured epochs, default terminate. *)
Lemma fit_runs_the_configured_epochs_toy :
  exists pieces,
    trc (Trainer_fit (Backend0 := Toy.backend true) (Toy.trainer 2 []) 0%nat)
    = concat pieces /\
    length pieces = 2%nat.
Proof.
  destruct (fit_runs_the_configured_epochs (Backend0 := Toy.backend true)
              (VObj 2) (VObj 3) (VObj 4) (VObj 5) (VObj 6) (VObj 8)
              (Toy.cfg 2) [] 0%nat (Toy.trainer 2 []) 0%nat)
    as (pieces & Htr & _ & Hall).
  - vm_compute. reflexivity.
  - exists pieces. split; [exact Htr|]. apply Hall. vm_compute. reflexivity.
Defined.

(** C3 on the small backend, accelerate installed: one supplied hook. *)
Lemma init_accepts_whitelisted_callbacks_toy :
  (exists self, res (Toy.make true 2 [("preprocess", Toy.blank)]) = inr self) <->
  Forall (fun kv => fst kv ∈ callbacks_whitelist) [("preprocess", Toy.blank)].
Proof.
  apply (init_accepts_whitelisted_callbacks (Backend0 := Toy.backend true)
           (Toy.tick (VObj 0)) (VObj 2) (VObj 3) (VObj 4) (VObj 5) (VObj 6)
           (VObj 8) (Toy.cfg 2) [("preprocess", Toy.blank)] 0%nat).
  reflexivity.
Defined.

(** C3 as stated, without accelerate: a dictionary with a key outside the
    whitelist raises [ModuleNotFoundError], not [ValueError], and a
    dictionary of whitelisted keys is not accepted either. *)
Lemma init_without_accelerate_ignores_whitelist :
  Exists (fun kv => fst kv ∉ callbacks_whitelist) [("bogus", Toy.blank)] /\
  res (Toy.make false 2 [("bogus", Toy.blank)])
  = inl (ModuleNotFoundError
           "accelerate library is not installed: pip install kornia[x]") /\
  ~ (exists msg, res (Toy.make false 2 [("bogus", Toy.blank)])
                 = inl (ValueError msg)) /\
  Forall (fun kv => fst kv ∈ callbacks_whitelist) [("preprocess", Toy.blank)] /\
  ~ (exists self, res (Toy.make false 2 [("preprocess", Toy.blank)]) = inr self).
Proof.
  split; [|split; [|split; [|split]]].
  - constructor. cbn. rewrite whitelist_names.
    intros [H|[H|[H|[H|[H|H]]]]]; discriminate.
  - reflexivity.
  - intros [msg H]. discriminate.
  - constructor; [|constructor]. cbn. rewrite whitelist_names. auto.
  - intros [self H]. discriminate.
Qed.




(** C5 on the small backend: [preprocess] supplied, [terminate] not. *)
Lemma supplied_callbacks_replace_defaults_toy :
  lookup_method (Toy.trainer 2 [("preprocess", Toy.blank)]) "preprocess"
    Trainer_preprocess
  = Toy.blank /\
  hook_calls_are "preprocess" Toy.blank
    (trc (Trainer_fit (Backend0 := Toy.backend true)
            (Toy.trainer 2 [("preprocess", Toy.blank)]) 0%nat)) /\
  hook_calls_are "terminate" (Trainer_class "terminate" : callable nat)
    (trc (Trainer_fit (Backend0 := Toy.backend true)
            (Toy.trainer 2 [("preprocess", Toy.blank)]) 0%nat)).
Proof.
  destruct (supplied_callbacks_replace_defaults (Backend0 := Toy.backend true)
              (VObj 2) (VObj 3) (VObj 4) (VObj 5) (VObj 6) (VObj 8)
              (Toy.cfg 2) [("preprocess", Toy.blank)] 0%nat
              (Toy.trainer 2 [("preprocess", Toy.blank)]))
    as (Hsup & Hnot & _).
  - apply NoDup_singleton.
  - vm_compute. reflexivity.
  - destruct (Hsup "preprocess" Toy.blank) as (_ & Hfn & _ & _ & Hfit); [left|].
    destruct (Hnot "terminate") as (_ & _ & _ & Hdef).
    { cbn. rewrite list_elem_of_singleton. discriminate. }
    split; [apply Hfn|]. split; [apply Hfit | apply Hdef].
Defined.

(** C8 on the small backend, accelerate missing. *)
Lemma init_without_accelerate_toy :
  Toy.make false 2 [("preprocess", Toy.blank)]
  = mkOutcome
      (inl (ModuleNotFoundError
              "accelerate library is not installed: pip install kornia[x]"))
      0%nat [].
Proof.
  apply (init_without_accelerate (Backend0 := Toy.backend false)).
  reflexivity.
Defined.


(** * Further properties of the constructor *)

Section ConstructionOrder.

Context {World : Type} `{!Backend World}.

(** With the accelerate library at hand, [Trainer.__init__] makes six
    calls, in this order: it creates the accelerator, prepares the model,
    the training loader and the validation loader, moves the criterion to
    the accelerator's device and prepares the optimizer.  The scheduler is
    stored as it was given.  The callbacks are looked at after all of
    that: trace and world are the same whatever the dictionary, so a
    [ValueError] for an unsupported name comes after the preparation
    has happened. *)
Theorem init_prepares_before_it_checks_callbacks cls model0 train0 valid0
    criterion0 optimizer0 scheduler0 config0 callbacks (w : World) :
  accelerate = Some cls ->
  (exists acc model' train' valid' dev criterion' optimizer',
     trc (Trainer_init model0 train0 valid0 criterion0 optimizer0
            scheduler0 config0 callbacks w)
     = [EAccelerator acc; EPrepare model0 model'; EPrepare train0 train';
        EPrepare valid0 valid'; ETo criterion0 dev criterion';
        EPrepare optimizer0 optimizer'] /\
     forall self,
       res (Trainer_init model0 train0 valid0 criterion0 optimizer0
              scheduler0 config0 callbacks w) = inr self ->
       accelerator self = acc /\ model self = model' /\
       train_dataloader self = train' /\ valid_dataloader self = valid' /\
       criterion self = criterion' /\ optimizer self = optimizer' /\
       scheduler self = scheduler0 /\ config self = config0) /\
  (forall callbacks',
     trc (Trainer_init model0 train0 valid0 criterion0 optimizer0
            scheduler0 config0 callbacks' w)
     = trc (Trainer_init model0 train0 valid0 criterion0 optimizer0
              scheduler0 config0 callbacks w) /\
     wld (Trainer_init model0 train0 valid0 criterion0 optimizer0
            scheduler0 config0 callbacks' w)
     = wld (Trainer_init model0 train0 valid0 criterion0 optimizer0
              scheduler0 config0 callbacks w)).
Proof.
  intros Hacc. split.
  - unfold Trainer_init, Accelerator. rewrite Hacc.
    do 4 run_extern.
    rewrite trc_bind, res_bind, trc_extern, res_extern, wld_extern.
    destruct (module_to criterion0 (device v w3) w3) as [criterion' w4].
    cbn [fst snd]. run_extern.
    exists v, v0, v1, v2, (device v w3), criterion', v3.
    destruct (configure_callbacks callbacks ∅) as [d [e|]]; cbn [ret res trc].
    + split; [reflexivity | discriminate].
    + split; [reflexivity|]. intros self Hself. inversion Hself; subst.
      cbn. repeat split.
  - intros callbacks'. unfold Trainer_init, Accelerator. rewrite Hacc.
    rewrite !trc_bind, !wld_bind.
    destruct (configure_callbacks callbacks ∅) as [d [e|]];
      destruct (configure_callbacks callbacks' ∅) as [d' [e'|]];
      split; reflexivity.
Qed.

(** The loop over the callbacks stops at the first name that is not
    whitelisted, in the dictionary's order: the error names that key,
    the hooks before it are bound by then, and nothing after it is
    looked at. *)
Theorem init_reports_the_first_unsupported_name cls model0 train0 valid0
    criterion0 optimizer0 scheduler0 config0
    (good rest : list (string * callable World)) (name : string)
    (fn : callable World) (d : gmap string (callable World)) (w : World) :
  accelerate = Some cls ->
  Forall (fun kv => fst kv ∈ callbacks_whitelist) good ->
  name ∉ callbacks_whitelist ->
  configure_callbacks (good ++ (name, fn) :: rest) d
  = (fst (configure_callbacks good d),
     Some (ValueError ("Not supported: " ++ name ++ ".")%string)) /\
  res (Trainer_init model0 train0 valid0 criterion0 optimizer0
         scheduler0 config0 (good ++ (name, fn) :: rest) w)
  = inl (ValueError ("Not supported: " ++ name ++ ".")%string).
Proof.
  intros Hacc Hgood Hname.
  assert (Hloop : forall d0,
            configure_callbacks (good ++ (name, fn) :: rest) d0
            = (fst (configure_callbacks good d0),
               Some (ValueError ("Not supported: " ++ name ++ ".")%string))).
  { induction Hgood as [|[k g] good Hk _ IH]; intros d0; cbn [app configure_callbacks].
    - rewrite bool_decide_eq_false_2 by exact Hname. reflexivity.
    - cbn [fst] in Hk. rewrite bool_decide_eq_true_2 by exact Hk. apply IH. }
  split; [apply Hloop|].
  pose proof (Trainer_init_installed cls model0 train0 valid0 criterion0
                optimizer0 scheduler0 config0 (good ++ (name, fn) :: rest) w Hacc)
    as Hinit.
  rewrite Hloop in Hinit. exact Hinit.
Qed.

End ConstructionOrder.

(** * Further properties of the loops *)

Section MonadCongruence.

Context {World : Type}.

Lemma bind_ext {A B} (m m' : M World A) (k k' : A -> M World B) (w : World) :
  m w = m' w -> (forall a w', k a w' = k' a w') -> bind m k w = bind m' k' w.
Proof. intros Hm Hk. unfold bind. rewrite Hm, Hk. reflexivity. Qed.

End MonadCongruence.

Section LoopEdges.

Context {World : Type} `{!Backend World}.

Implicit Types (self : Trainer World) (w : World).

(** A trainer whose number of epochs is zero or negative returns from
    [fit] at once: no call is made, the world is as it was. *)
Theorem fit_without_epochs_makes_no_call self w :
  num_epochs self <= 0 ->
  Trainer_fit self w = mkOutcome tt w [].
Proof.
  intros Hn. unfold Trainer_fit, range.
  replace (Z.to_nat (num_epochs self)) with 0%nat by lia. reflexivity.
Qed.

(** When the training loader yields no sample, a training pass switches
    the model to training mode, asks the loader, and does nothing else:
    no gradient reset, no hook, no optimizer step, no log record; the
    meter stays as created. *)
Theorem fit_epoch_on_an_empty_loader self epoch w :
  (forall w', fst (dataloader_iter (train_dataloader self) w') = []) ->
  trc (Trainer_fit_epoch self epoch w) = [EModelTrain; EIter 0] /\
  res (fit_epoch_losses self epoch w) = AverageMeter.new.
Proof.
  intros Hempty. rewrite Trainer_fit_epoch_trace. unfold fit_epoch_losses.
  run_extern. rewrite bind_extern. rewrite (Hempty w0). cbv zeta.
  cbn [train_loop ret res trc length]. auto.
Qed.

Lemma train_step_log self epoch sample_id sample losses w :
  log_samples (trc (train_step self epoch sample_id sample losses w))
  = if sample_id mod 50 =? 0 then [sample_id + 1] else [].
Proof.
  destruct sample as [source target]. unfold train_step, backward, call_method.
  do 7 run_extern.
  rewrite trc_bind. unfold losses_update. cbn [res wld trc].
  rewrite trc_bind. cbn [ret trc].
  destruct (sample_id mod 50 =? 0); reflexivity.
Qed.

Lemma train_loop_log self epoch sample_id samples losses w :
  log_samples (trc (train_loop self epoch sample_id samples losses w))
  = map (fun i => i + 1)
      (List.filter (fun i => i mod 50 =? 0)
         (map (fun k => sample_id + Z.of_nat k) (seq 0 (length samples)))).
Proof.
  revert sample_id losses w.
  induction samples as [|sample samples IH]; intros sample_id losses w.
  - reflexivity.
  - cbn [train_loop]. rewrite trc_bind. unfold log_samples in *.
    rewrite omap_app. fold (log_samples
      (trc (train_step self epoch sample_id sample losses w))).
    rewrite train_step_log, IH.
    cbn [length seq map List.filter]. rewrite Z.add_0_r.
    rewrite <- seq_shift, List.map_map.
    rewrite (List.map_ext (fun k => sample_id + Z.of_nat (S k))
               (fun k => sample_id + 1 + Z.of_nat k)) by (intros k; lia).
    destruct (sample_id mod 50 =? 0); reflexivity.
Qed.

(** A training pass over [n] batches writes a log record for the
    batches numbered 0, 50, 100, ... below [n] and for no other, each
    showing its batch number plus one. *)
Theorem training_pass_logs_every_50th_batch self epoch w :
  exists n rest,
    trc (Trainer_fit_epoch self epoch w) = EModelTrain :: EIter n :: rest /\
    log_samples (trc (Trainer_fit_epoch self epoch w))
    = map (fun i => i + 1)
        (List.filter (fun i => i mod 50 =? 0) (range (Z.of_nat n))).
Proof.
  rewrite Trainer_fit_epoch_trace. unfold fit_epoch_losses. do 2 run_extern.
  exists (length l), (trc (train_loop self epoch 0 l AverageMeter.new w1)).
  split; [reflexivity|].
  change (log_samples (trc (train_loop self epoch 0 l AverageMeter.new w1))
          = map (fun i => i + 1)
              (List.filter (fun i => i mod 50 =? 0) (range (Z.of_nat (length l))))).
  rewrite train_loop_log. unfold range. rewrite Nat2Z.id. reflexivity.
Qed.

Lemma train_loop_with_validation self valid cfg epoch sample_id samples losses w :
  train_loop (with_validation self valid cfg) epoch sample_id samples losses w
  = train_loop self epoch sample_id samples losses w.
Proof.
  revert sample_id losses w.
  induction samples as [|[source target] samples IH]; intros sample_id losses w.
  - reflexivity.
  - cbn [train_loop]. apply bind_ext; [reflexivity|].
    intros losses' w'. apply IH.
Qed.

Lemma fit_loop_with_validation self valid cfg (es : list Z) w :
  fit_loop (with_validation self valid cfg) es w = fit_loop self es w.
Proof.
  revert w. induction es as [|e es IH]; intros w; [reflexivity|].
  cbn [fit_loop]. apply bind_ext.
  - unfold Trainer_fit_epoch, fit_epoch_losses.
    apply bind_ext; [|reflexivity].
    apply bind_ext; [reflexivity|]. intros _ w1.
    apply bind_ext; [reflexivity|]. intros samples w2.
    apply train_loop_with_validation.
  - intros _ w1. apply bind_ext; [reflexivity|]. intros stats w2.
    apply bind_ext; [reflexivity|]. intros _ w3.
    apply bind_ext; [reflexivity|]. intros st w4.
    apply bind_ext; [reflexivity|]. intros stop w5.
    destruct stop; [reflexivity|].
    apply bind_ext; [reflexivity|]. intros _ w6. apply IH.
Qed.

(** [fit] reads neither the validation loader nor the configuration
    record of the trainer: with any other ones in their place it makes
    the same calls, returns the same value and leaves the same world.
    Validation is what the evaluate hook does, and the number of epochs
    is the one [__init__] copied. *)
Theorem fit_never_reads_the_validation_loader self valid cfg w :
  Trainer_fit (with_validation self valid cfg) w = Trainer_fit self w.
Proof. unfold Trainer_fit. apply fit_loop_with_validation. Qed.

End LoopEdges.

Section DefaultHooks.

Context {World : Type} `{!Backend World}.

Implicit Types (self : Trainer World) (w : World).

Lemma call_method_class self (name : string) (class_impl : callable World)
    (args : list value) :
  dict self !! name = None ->
  call_method self name class_impl args
  = extern (class_impl args) (EHook name args).
Proof. intros H. unfold call_method, lookup_method. rewrite H. reflexivity. Qed.

Lemma fit_loop_default_terminate self (es : list Z) w :
  dict self !! "terminate" = None ->
  terminate_calls (trc (fit_loop self es w)) = map (fun e => (e, VNone)) es /\
  stop_checks (trc (fit_loop self es w)) = map (fun _ => false) es.
Proof.
  intros Hdefault. revert w. induction es as [|e es IH]; intros w.
  - split; reflexivity.
  - cbn [fit_loop]. rewrite trc_bind, terminate_calls_app, stop_checks_app.
    destruct (fit_epoch_run self e w) as (wl & batches & -> & Hruns).
    pose proof (batch_runs_traces self e _ batches Hruns) as Hall.
    destruct (pass_readings self e (length batches) batches Hall)
      as (_ & -> & _ & _ & ->).
    generalize (wld (Trainer_fit_epoch self e w)). intros w1.
    split.
    all: unfold call_method at 1 2; do 2 run_extern;
      rewrite (call_method_class self "terminate" _ _ Hdefault);
      rewrite bind_extern; cbn [Trainer_terminate fst snd]; cbv zeta;
      cbn [res wld trc py_eq_member]; rewrite bind_extern;
      cbn [fst snd]; cbv zeta;
      change (bool_decide (VNone = VState TERMINATE)) with false; cbv iota;
      cbn [res wld trc]; run_extern;
      match goal with
      | |- context [fit_loop _ _ ?w'] => destruct (IH w') as (IHc & IHs)
      end;
      cbn [app map].
    + rewrite <- IHc. reflexivity.
    + rewrite <- IHs. reflexivity.
Qed.

Lemma no_false_terminates (es : list Z) :
  existsb (fun r : bool => r) (map (fun _ : Z => false) es) = false.
Proof. induction es as [|e es IH]; [reflexivity | exact IH]. Qed.

(** A trainer that was given no terminate hook never stops early: the
    class's [terminate] returns [None] for every epoch of
    [range(num_epochs)], [fit] runs them all and steps the scheduler
    once for each. *)
Theorem default_terminate_runs_every_epoch self w :
  dict self !! "terminate" = None ->
  terminate_calls (trc (Trainer_fit self w))
  = map (fun e => (e, VNone)) (range (num_epochs self)) /\
  terminated (trc (Trainer_fit self w)) = false /\
  scheduler_steps (trc (Trainer_fit self w)) = Z.to_nat (num_epochs self).
Proof.
  intros Hdefault. unfold Trainer_fit.
  destruct (fit_loop_default_terminate self (range (num_epochs self)) w Hdefault)
    as (Hcalls & Hchecks).
  assert (Hnot : terminated (trc (fit_loop self (range (num_epochs self)) w)) = false).
  { unfold terminated. rewrite Hchecks. apply no_false_terminates. }
  split; [exact Hcalls|].
  split; [exact Hnot|].
  rewrite (fit_loop_scheduler_all self _ w Hnot). apply range_length.
Qed.

(** The readings of one batch: what preprocess was called on, what the
    criterion was given as target, and what the model was called on when
    the class's preprocess and augmentations are in place. *)
Lemma train_step_flow self epoch sample_id (source target : value) losses w :
  omap preprocess_input
    (trc (train_step self epoch sample_id (source, target) losses w)) = [source] /\
  omap criterion_target
    (trc (train_step self epoch sample_id (source, target) losses w)) = [target] /\
  (dict self !! "preprocess" = None -> dict self !! "augmentations" = None ->
   omap forward_input
     (trc (train_step self epoch sample_id (source, target) losses w)) = [source]).
Proof.
  split; [|split].
  - unfold train_step, backward, call_method. do 7 run_extern.
    rewrite trc_bind. unfold losses_update. cbn [res wld trc].
    rewrite trc_bind. cbn [ret trc].
    destruct (sample_id mod 50 =? 0); reflexivity.
  - unfold train_step, backward, call_method. do 7 run_extern.
    rewrite trc_bind. unfold losses_update. cbn [res wld trc].
    rewrite trc_bind. cbn [ret trc].
    destruct (sample_id mod 50 =? 0); reflexivity.
  - intros Hpre Haug. unfold train_step, backward.
    rewrite (call_method_class self "preprocess" _ _ Hpre).
    run_extern.
    rewrite bind_extern. cbn [Trainer_preprocess fst snd]. cbv zeta.
    cbn [res wld trc].
    rewrite (call_method_class self "augmentations" _ _ Haug).
    rewrite bind_extern. cbn [Trainer_augmentations fst snd]. cbv zeta.
    cbn [res wld trc].
    do 4 run_extern.
    rewrite trc_bind. unfold losses_update. cbn [res wld trc].
    rewrite trc_bind. cbn [ret trc].
    destruct (sample_id mod 50 =? 0); reflexivity.
Qed.

Lemma train_loop_flow self epoch sample_id (samples : list (value * value))
    losses w :
  omap preprocess_input (trc (train_loop self epoch sample_id samples losses w))
  = map fst samples /\
  omap criterion_target (trc (train_loop self epoch sample_id samples losses w))
  = map snd samples /\
  (dict self !! "preprocess" = None -> dict self !! "augmentations" = None ->
   omap forward_input (trc (train_loop self epoch sample_id samples losses w))
   = map fst samples).
Proof.
  revert sample_id losses w.
  induction samples as [|[source target] samples IH]; intros sample_id losses w.
  - repeat split.
  - cbn [train_loop]. rewrite trc_bind, !omap_app.
    destruct (train_step_flow self epoch sample_id source target losses w)
      as (-> & -> & Hfwd).
    destruct (IH (sample_id + 1)
                (res (train_step self epoch sample_id (source, target) losses w))
                (wld (train_step self epoch sample_id (source, target) losses w)))
      as (-> & -> & Hfwds).
    split; [reflexivity|]. split; [reflexivity|].
    intros Hpre Haug. rewrite (Hfwd Hpre Haug), (Hfwds Hpre Haug). reflexivity.
Qed.

(** In a training pass the hooks see the sources only: preprocess is
    called on the source of every sample the loader yielded, in order,
    and the criterion is given every sample's own target, which no hook
    has touched.  When neither preprocess nor augmentations was supplied,
    the model is called on the sources themselves. *)
Theorem targets_reach_the_criterion_untouched self epoch w :
  let samples :=
    fst (dataloader_iter (train_dataloader self)
           (snd (module_train (model self) w))) in
  omap preprocess_input (trc (Trainer_fit_epoch self epoch w)) = map fst samples /\
  omap criterion_target (trc (Trainer_fit_epoch self epoch w)) = map snd samples /\
  (dict self !! "preprocess" = None -> dict self !! "augmentations" = None ->
   omap forward_input (trc (Trainer_fit_epoch self epoch w)) = map fst samples).
Proof.
  intros samples. subst samples.
  rewrite Trainer_fit_epoch_trace. unfold fit_epoch_losses.
  rewrite !bind_extern. cbv zeta. cbn [res wld trc omap list_omap
    preprocess_input criterion_target forward_input].
  apply train_loop_flow.
Qed.

End DefaultHooks.

Section LogRecords.

Context {World : Type} `{!Backend World}.

Implicit Types (self : Trainer World) (w : World).

(** The events of one iteration of the training loop, the log record
    and the meter it returns. *)
Lemma train_step_shape self epoch sample_id sample losses w :
  exists img img' output loss v n samples,
    trc (train_step self epoch sample_id sample losses w)
    = [EZeroGrad;
       EHook "preprocess" [fst sample] img;
       EHook "augmentations" [img] img';
       EForward img' output;
       ECriterion output (snd sample) loss;
       EBackward loss;
       EOptimizerStep;
       EMeterUpdate v n]
      ++ (if sample_id mod 50 =? 0
          then [ELogInfo (epoch + 1) (num_epochs self) (sample_id + 1) samples
                  v (AverageMeter.avg (AverageMeter.update losses v n))]
          else []) /\
    res (train_step self epoch sample_id sample losses w)
    = AverageMeter.update losses v n.
Proof.
  destruct sample as [source target]. unfold train_step, backward, call_method.
  do 7 run_extern.
  rewrite trc_bind, res_bind. unfold losses_update.
  cbn [res wld trc]. rewrite trc_bind, res_bind. cbn [ret res trc].
  exists v, v0, v1, v2, (tensor_item v2 w6), (tensor_shape0 v0 w6),
    (dataloader_len (train_dataloader self) w6).
  destruct (sample_id mod 50 =? 0); split; reflexivity.
Qed.

Lemma train_loop_head self epoch sample_id samples losses w :
  trc (train_loop self epoch sample_id samples losses w) = [] \/
  exists rest,
    trc (train_loop self epoch sample_id samples losses w) = EZeroGrad :: rest.
Proof.
  destruct samples as [|sample samples]; [left; reflexivity|]. right.
  cbn [train_loop]. rewrite trc_bind.
  destruct (train_step_shape self epoch sample_id sample losses w)
    as (img & img' & output & loss & v & n & len & -> & _).
  eexists. reflexivity.
Qed.

Lemma train_loop_logs self epoch sample_id samples losses w :
  logs_follow_updates losses
    (trc (train_loop self epoch sample_id samples losses w)).
Proof.
  revert sample_id losses w.
  induction samples as [|sample samples IH]; intros sample_id losses w.
  - exact I.
  - cbn [train_loop]. rewrite trc_bind.
    destruct (train_step_shape self epoch sample_id sample losses w)
      as (img & img' & output & loss & v & n & len & -> & ->).
    generalize (wld (train_step self epoch sample_id sample losses w)).
    intros w'.
    pose proof (IH (sample_id + 1) (AverageMeter.update losses v n) w') as Hrest.
    destruct (train_loop_head self epoch (sample_id + 1) samples
                (AverageMeter.update losses v n) w') as [Hnil|(rest & Hcons)].
    + rewrite Hnil. destruct (sample_id mod 50 =? 0); cbn; auto.
    + rewrite Hcons in *. destruct (sample_id mod 50 =? 0); cbn; auto.
Qed.

(** Every log record of a training pass is written right after the
    meter took the loss of the batch being logged: it follows that
    batch's update, the current value it shows is the value of that
    update and the average it shows counts that batch in. *)
Theorem log_records_show_the_updated_meter self epoch w :
  logs_follow_updates AverageMeter.new (trc (Trainer_fit_epoch self epoch w)).
Proof.
  rewrite Trainer_fit_epoch_trace. unfold fit_epoch_losses. do 2 run_extern.
  cbn [logs_follow_updates]. apply train_loop_logs.
Qed.

End LogRecords.

Section CallbackOrder.

Context {World : Type} `{!Backend World}.

(** For a dictionary that is accepted, the order of its items plays no
    role: the same names end up bound to the same functions.  (Which
    unsupported name an error reports does depend on the order.) *)
Theorem accepted_callbacks_bind_the_same_in_any_order
    (items items' : list (string * callable World))
    (d : gmap string (callable World)) :
  items ≡ₚ items' ->
  NoDup items.*1 ->
  Forall (fun kv => fst kv ∈ callbacks_whitelist) items ->
  configure_callbacks items' d = configure_callbacks items d.
Proof.
  intros Hperm Hnd Hok.
  assert (Hok' : Forall (fun kv => fst kv ∈ callbacks_whitelist) items').
  { rewrite <- Hperm. exact Hok. }
  assert (Hnd' : NoDup items'.*1).
  { rewrite <- Hperm. exact Hnd. }
  pose proof (proj2 (configure_callbacks_ok items d) Hok) as Hnone.
  pose proof (proj2 (configure_callbacks_ok items' d) Hok') as Hnone'.
  destruct (configure_callbacks items d) as [m o] eqn:E.
  destruct (configure_callbacks items' d) as [m' o'] eqn:E'.
  cbn [snd] in Hnone, Hnone'. subst o o'. f_equal.
  apply map_eq. intros name.
  change m' with (fst (m', @None exception)).
  change m with (fst (m, @None exception)).
  rewrite <- E, <- E'.
  destruct (decide (name ∈ items.*1)) as [Hin|Hnot].
  - apply list_elem_of_fmap in Hin as ([k fn] & -> & Hin). cbn [fst].
    rewrite (configure_callbacks_bound items d k fn Hnd); [|rewrite E; reflexivity|exact Hin].
    rewrite (configure_callbacks_bound items' d k fn Hnd');
      [reflexivity|rewrite E'; reflexivity|]. rewrite <- Hperm. exact Hin.
  - rewrite (configure_callbacks_skip items d name Hnot).
    apply configure_callbacks_skip. rewrite <- Hperm. exact Hnot.
Qed.

End CallbackOrder.

(** * The further properties on the small backends *)

Example log_record_ahead_of_its_update :
  ~ logs_follow_updates AverageMeter.new
      [EOptimizerStep; ELogInfo 1 1 1 1 0 0; EMeterUpdate (1 # 2) 4].
Proof. cbn. tauto. Qed.

Example log_record_of_another_value :
  ~ logs_follow_updates AverageMeter.new
      [EMeterUpdate (1 # 2) 4; ELogInfo 1 1 1 1 0 0].
Proof. cbn. intros (H & _). discriminate. Qed.

Example log_samples_of_120_batches :
  map (fun i => i + 1) (List.filter (fun i => i mod 50 =? 0) (range 120))
  = [1; 51; 101].
Proof. vm_compute. reflexivity. Qed.

Lemma init_prepares_before_it_checks_callbacks_toy :
  trc (Toy.make true 2 [("bogus", Toy.blank)]) = trc (Toy.make true 2 []) /\
  wld (Toy.make true 2 [("bogus", Toy.blank)]) = wld (Toy.make true 2 []).
Proof.
  apply (init_prepares_before_it_checks_callbacks (Backend0 := Toy.backend true)
           (Toy.tick (VObj 0)) (VObj 2) (VObj 3) (VObj 4) (VObj 5) (VObj 6)
           (VObj 8) (Toy.cfg 2) [] 0%nat).
  reflexivity.
Defined.

Lemma init_reports_the_first_unsupported_name_toy :
  res (Toy.make true 2 [("preprocess", Toy.blank); ("bogus", Toy.blank);
                        ("worse", Toy.blank)])
  = inl (ValueError "Not supported: bogus.").
Proof.
  apply (init_reports_the_first_unsupported_name (Backend0 := Toy.backend true)
           (Toy.tick (VObj 0)) (VObj 2) (VObj 3) (VObj 4) (VObj 5) (VObj 6)
           (VObj 8) (Toy.cfg 2) [("preprocess", Toy.blank)]
           [("worse", Toy.blank)] "bogus" Toy.blank ∅ 0%nat).
  - reflexivity.
  - constructor; [|constructor]. cbn. rewrite whitelist_names. auto.
  - rewrite whitelist_names. intros [H|[H|[H|[H|[H|H]]]]]; discriminate.
Defined.

Lemma fit_without_epochs_makes_no_call_toy :
  Trainer_fit (Backend0 := Toy.backend true) (Toy.trainer (-3) []) 5%nat
  = mkOutcome tt 5%nat [].
Proof.
  apply (fit_without_epochs_makes_no_call (Backend0 := Toy.backend true)).
  cbn. lia.
Defined.

Lemma fit_epoch_on_an_empty_loader_toy :
  trc (Trainer_fit_epoch (Backend0 := ToyEmpty.backend) (Toy.trainer 2 []) 0 0%nat)
  = [EModelTrain; EIter 0] /\
  res (fit_epoch_losses (Backend0 := ToyEmpty.backend) (Toy.trainer 2 []) 0 0%nat)
  = AverageMeter.new.
Proof.
  apply (fit_epoch_on_an_empty_loader (Backend0 := ToyEmpty.backend)).
  intros w'. reflexivity.
Defined.

Lemma default_terminate_runs_every_epoch_toy :
  terminate_calls
    (trc (Trainer_fit (Backend0 := Toy.backend true)
            (Toy.trainer 3 [("preprocess", Toy.blank)]) 0%nat))
  = map (fun e => (e, VNone)) (range 3) /\
  terminated
    (trc (Trainer_fit (Backend0 := Toy.backend true)
            (Toy.trainer 3 [("preprocess", Toy.blank)]) 0%nat)) = false /\
  scheduler_steps
    (trc (Trainer_fit (Backend0 := Toy.backend true)
            (Toy.trainer 3 [("preprocess", Toy.blank)]) 0%nat)) = 3%nat.
Proof.
  apply (default_terminate_runs_every_epoch (Backend0 := Toy.backend true)
           (Toy.trainer 3 [("preprocess", Toy.blank)]) 0%nat).
  vm_compute. reflexivity.
Defined.

Lemma accepted_callbacks_bind_the_same_in_any_order_toy :
  configure_callbacks
    [("terminate", Toy.stop_at 1); ("preprocess", Toy.blank)] ∅
  = configure_callbacks
      [("preprocess", Toy.blank); ("terminate", Toy.stop_at 1)] ∅.
Proof.
  apply accepted_callbacks_bind_the_same_in_any_order.
  - apply perm_swap.
  - cbn. apply NoDup_cons. split; [|apply NoDup_singleton].
    rewrite list_elem_of_singleton. discriminate.
  - repeat constructor; cbn; rewrite whitelist_names; auto.
Defined.
